(** * pydantic_property: field properties on pydantic models

    A shallow embedding of [pydantic_property/prop.py]:

    - [Py]: the fragment of Python the module relies on (values, exceptions,
      ordered dictionaries, objects with a [__dict__] and slots);
    - [FieldProperty]: the descriptor class [field_property];
    - [Model]: attribute access on instances and [PropertyModel.__setattr__];
    - [Meta]: the class construction hook [PropertyModelMetaclass.__new__];
    - [ModelSystem]: a reference instance of the collaborator (pydantic's
      [BaseModel]) used to run the examples; the theorems are stated for an
      arbitrary collaborator. *)

From Stdlib Require Import ZArith Ascii String.
From stdpp Require Import gmap strings list.

Local Open Scope string_scope.
Local Open Scope list_scope.

(** ** Python fragment *)

Module Py.

(** Exceptions that the module raises or lets through. *)
Inductive exn : Type :=
| AttributeError (msg : string)
| TypeError (msg : string)
| ValueError (msg : string)
| RecursionError
| UserError (msg : string).

(** The outcome of an expression: a value or a raised exception. *)
Inductive result (A : Type) : Type :=
| Ok (a : A)
| Raise (e : exn).
Arguments Ok {A} a.
Arguments Raise {A} e.

(** Python objects that occur as field values, defaults and annotations.
    [VUndefined] is pydantic's [Undefined] sentinel, [VClass n] the class
    object named [n], [VInst n] an instance of a class without further
    structure. *)
Inductive value : Type :=
| VNone
| VUndefined
| VInt (z : Z)
| VStr (s : string)
| VBool (b : bool)
| VClass (name : string)
| VInst (cls : string).

(** [v is Undefined]. The sentinel defines no [__eq__], so [==] and [!=]
    against it are identity tests as well. *)
Definition is_undefined (v : value) : bool :=
  match v with VUndefined => true | _ => false end.

(** [v.__class__], as a class object. *)
Definition class_of (v : value) : value :=
  match v with
  | VNone => VClass "NoneType"
  | VUndefined => VClass "UndefinedType"
  | VInt _ => VClass "int"
  | VStr _ => VClass "str"
  | VBool _ => VClass "bool"
  | VClass _ => VClass "type"
  | VInst c => VClass c
  end.

(** [s.startswith(p)] *)
Definition startswith (p s : string) : bool := String.prefix p s.

(** [s[1:]] *)
Definition drop_first (s : string) : string :=
  match s with
  | EmptyString => EmptyString
  | String _ rest => rest
  end.

(** Truth value of an optional string ([None] and [''] are false). *)
Definition truthy (s : option string) : bool :=
  match s with
  | None | Some EmptyString => false
  | Some _ => true
  end.

(** [x is not None] for an optional attribute. *)
Definition is_not_none {A : Type} (x : option A) : bool :=
  match x with Some _ => true | None => false end.

(** The state of an instance: its [__dict__] (the map pydantic serializes)
    and the slots that hold its private attributes. *)
Record obj : Type := {
  o_dict : gmap string value;
  o_slots : gmap string value
}.

Definition with_dict (o : obj) (d : gmap string value) : obj :=
  {| o_dict := d; o_slots := o_slots o |}.

Definition with_slots (o : obj) (s : gmap string value) : obj :=
  {| o_dict := o_dict o; o_slots := s |}.

(** Insertion-ordered dictionaries with arbitrary values (a class
    namespace).  Assigning to a present key keeps its position. *)
Section Dict.
Context {V : Type}.

Fixpoint dict_get (k : string) (l : list (string * V)) : option V :=
  match l with
  | [] => None
  | (k', v) :: rest => if decide (k' = k) then Some v else dict_get k rest
  end.

Fixpoint dict_set (k : string) (v : V) (l : list (string * V))
  : list (string * V) :=
  match l with
  | [] => [(k, v)]
  | (k', v') :: rest =>
      if decide (k' = k) then (k, v) :: rest
      else (k', v') :: dict_set k v rest
  end.

End Dict.

End Py.

(** ** The descriptor: [class field_property(FieldInfo)] *)

Module FieldProperty.
Import Py.

(** A zero-argument callable stored as [default_factory].  [SigEmpty] is
    [inspect.Signature.empty], which [__init__] may store there; calling
    that class yields an instance of it.  Any other factory is given by
    the outcome of calling it. *)
Inductive factory : Type :=
| SigEmpty
| Producer (r : result value).

Definition call_factory (f : factory) : result value :=
  match f with
  | SigEmpty => Ok (VInst "_empty")
  | Producer r => r
  end.

Definition is_sig_empty (f : factory) : bool :=
  match f with SigEmpty => true | Producer _ => false end.

(** An instance as the descriptor uses it: the state handed to the user's
    callables, and [getattr(instance, name)]. *)
Record instance : Type := {
  inst_obj : obj;
  inst_getattr : string -> result value
}.

(** What [fget] can hold: the bound method [self.internal_getter], or a
    function of the user with its return annotation ([SigEmpty] when it
    has none).  A getter reads the instance and leaves it as it is. *)
Inductive getter_fn : Type :=
| InternalGetter
| UserGetter (call : obj -> result value) (return_annotation : factory).

(** What [fset] and [fdel] can hold: functions of the user, which may
    change the instance before they return or raise. *)
Definition setter_fn : Type := obj -> value -> obj * result unit.
Definition deleter_fn : Type := obj -> obj * result unit.

(** The validation metadata handed through to [FieldInfo.__init__]. *)
Record constraints : Type := {
  alias : value;
  title : value;
  description : value;
  const : value;
  gt : value;
  ge : value;
  lt : value;
  le : value;
  multiple_of : value;
  min_items : value;
  max_items : value;
  min_length : value;
  max_length : value;
  regex : value;
  extra : list (string * value)
}.

(** The slots of a [field_property]: its own five and those of
    [FieldInfo]. *)
Record field_property : Type := {
  public_name : option string;
  private_name : option string;
  fget : option getter_fn;
  fset : option setter_fn;
  fdel : option deleter_fn;
  default : value;
  default_factory : option factory;
  info : constraints
}.

(** The first positional argument of the constructor. *)
Inductive fget_arg : Type :=
| ArgNone
| ArgStr (s : string)
| ArgFun (call : obj -> result value) (return_annotation : factory).

(** [inspect.signature(self.fget).return_annotation]; the bound method
    [internal_getter] has none. *)
Definition return_annotation_of (g : getter_fn) : factory :=
  match g with
  | InternalGetter => SigEmpty
  | UserGetter _ ann => ann
  end.

(** [field_property.__init__] *)
Definition __init__ (fget0 : fget_arg) (fset0 : option setter_fn)
    (fdel0 : option deleter_fn) (default0 : value)
    (public_name0 private_name0 : option string)
    (default_factory0 : option factory) (cs : constraints) : field_property :=
  let '(public_name1, private_name1, fget1) :=
    match fget0 with
    | ArgStr s =>
        let private_name1 := s in
        let public_name1 :=
          match public_name0 with
          | None =>
              if startswith "_" private_name1
                 && negb (startswith "__" private_name1)
              then Some (drop_first private_name1)
              else None
          | Some p => Some p
          end in
        (public_name1, Some private_name1, InternalGetter)
    | ArgNone => (public_name0, private_name0, InternalGetter)
    | ArgFun f ann => (public_name0, private_name0, UserGetter f ann)
    end in
  let '(default1, default_factory1) :=
    if negb (is_undefined default0) && is_not_none default_factory0 then
      let ann := return_annotation_of fget1 in
      (if is_sig_empty ann then VNone else default0, Some ann)
    else (default0, default_factory0) in
  {| public_name := public_name1;
     private_name := private_name1;
     fget := Some fget1;
     fset := fset0;
     fdel := fdel0;
     default := default1;
     default_factory := default_factory1;
     info := cs |}.

(** [field_property.__set_name__] *)
Definition __set_name__ (self : field_property) (owner : string)
    (name : string) : field_property :=
  {| public_name := Some name;
     private_name := private_name self;
     fget := fget self;
     fset := fset self;
     fdel := fdel self;
     default := default self;
     default_factory := default_factory self;
     info := info self |}.

(** [field_property.get_default] *)
Definition get_default (self : field_property) : result value :=
  if negb (is_undefined (default self)) then Ok (default self)
  else
    match default_factory self with
    | Some f => call_factory f
    | None => Ok VUndefined
    end.

(** [field_property.get_type] *)
Definition get_type (self : field_property) : result value :=
  match get_default self with
  | Raise e => Raise e
  | Ok dflt => if is_undefined dflt then Ok dflt else Ok (class_of dflt)
  end.

(** [field_property.internal_getter].  [getattr] with a name that is not
    a string is a [TypeError], which the handler does not catch.  When
    the slot is missing and a default resolves, the body ends without a
    [return]: the call yields [None]. *)
Definition internal_getter (self : field_property) (i : instance)
  : result value :=
  match private_name self with
  | None => Raise (TypeError "attribute name must be string")
  | Some p =>
      match inst_getattr i p with
      | Raise (AttributeError msg) =>
          match get_default self with
          | Raise e => Raise e
          | Ok dflt =>
              if is_undefined dflt then Raise (AttributeError msg)
              else Ok VNone
          end
      | r => r
      end
  end.

(** Calling whatever [fget] holds on an instance. *)
Definition call_getter (self : field_property) (g : getter_fn) (i : instance)
  : result value :=
  match g with
  | InternalGetter => internal_getter self i
  | UserGetter f _ => f (inst_obj i)
  end.

(** The branch of [__get__] taken on an instance (the specification's
    [read(instance)]). *)
Definition read (self : field_property) (i : instance) : result value :=
  match fget self with
  | None => Raise (AttributeError "unreadable attribute")
  | Some g => call_getter self g i
  end.

(** [field_property.__get__]: the descriptor itself when read on the
    class, the getter's outcome when read on an instance. *)
Definition __get__ (self : field_property) (obj0 : option instance)
  : field_property + result value :=
  match obj0 with
  | None => inl self
  | Some i => inr (read self i)
  end.

(** [field_property.__set__] *)
Definition __set__ (self : field_property) (o : obj) (v : value)
  : obj * result unit :=
  match fset self with
  | None => (o, Raise (AttributeError "can't set attribute"))
  | Some f => f o v
  end.

(** [field_property.__delete__] *)
Definition __delete__ (self : field_property) (o : obj)
  : obj * result unit :=
  match fdel self with
  | None => (o, Raise (AttributeError "can't delete attribute"))
  | Some f => f o
  end.

(** [field_property.getter] (also bound to [__call__]), [setter] and
    [deleter]: attach the function and return the descriptor. *)
Definition getter (self : field_property) (g : option getter_fn)
  : field_property :=
  {| public_name := public_name self;
     private_name := private_name self;
     fget := g;
     fset := fset self;
     fdel := fdel self;
     default := default self;
     default_factory := default_factory self;
     info := info self |}.

Definition setter (self : field_property) (f : option setter_fn)
  : field_property :=
  {| public_name := public_name self;
     private_name := private_name self;
     fget := fget self;
     fset := f;
     fdel := fdel self;
     default := default self;
     default_factory := default_factory self;
     info := info self |}.

Definition deleter (self : field_property) (f : option deleter_fn)
  : field_property :=
  {| public_name := public_name self;
     private_name := private_name self;
     fget := fget self;
     fset := fset self;
     fdel := f;
     default := default self;
     default_factory := default_factory self;
     info := info self |}.

(** The descriptors a class body can hold without ever handing a null
    getter to the [getter] builder: the constructor's results, then any
    chain of builders and of [__set_name__]. *)
Inductive declared : field_property -> Prop :=
| declared_init fget0 fset0 fdel0 default0 public_name0 private_name0
    default_factory0 cs :
    declared (__init__ fget0 fset0 fdel0 default0 public_name0 private_name0
                default_factory0 cs)
| declared_getter self g :
    declared self -> declared (getter self (Some g))
| declared_setter self f :
    declared self -> declared (setter self f)
| declared_deleter self f :
    declared self -> declared (deleter self f)
| declared_set_name self owner name :
    declared self -> declared (__set_name__ self owner name).

End FieldProperty.

(** ** Instances: attribute access and [PropertyModel.__setattr__] *)

Module Model.
Import Py FieldProperty.

(** What attribute lookup on a class finds under a name: a
    [field_property] (a data descriptor), the member descriptor of a
    private attribute's slot, or a plain value. *)
Inductive class_attr : Type :=
| AProperty (d : field_property)
| ASlot
| AValue (v : value).

(** List objects live in a store; a class refers to its
    [__field_properties__] list by location. *)
Abbreviation loc := nat.
Abbreviation heap := (list (list string)).

(** A class as instances see it: the attributes that lookup on the class
    resolves (its own and the inherited ones), pydantic's [__fields__],
    and the [__field_properties__] list when the class has one. *)
Record class : Type := {
  c_name : string;
  c_attrs : gmap string class_attr;
  c_fields : list string;
  c_registry : option loc
}.

(** [getattr(c, '__field_properties__', [])] *)
Definition registry (h : heap) (c : class) : list string :=
  match c_registry c with
  | Some l => match h !! l with Some names => names | None => [] end
  | None => []
  end.

(** [isinstance(getattr(c, name, None), field_property)] *)
Definition is_field_property (c : class) (name : string) : bool :=
  match c_attrs c !! name with
  | Some (AProperty _) => true
  | _ => false
  end.

(** [object.__getattribute__(o, name)], which is also [getattr(o, name)]:
    a data descriptor of the class first, then the instance's
    [__dict__], then a plain class attribute.  [fuel] is the remaining
    recursion depth: a property read enters one more frame. *)
Fixpoint getattr (fuel : nat) (c : class) (o : obj) (name : string)
  : result value :=
  match c_attrs c !! name with
  | Some (AProperty d) =>
      match fuel with
      | O => Raise RecursionError
      | S n => read d {| inst_obj := o; inst_getattr := getattr n c o |}
      end
  | Some ASlot =>
      match o_slots o !! name with
      | Some v => Ok v
      | None => Raise (AttributeError name)
      end
  | Some (AValue v) =>
      match o_dict o !! name with
      | Some x => Ok x
      | None => Ok v
      end
  | None =>
      match o_dict o !! name with
      | Some x => Ok x
      | None => Raise (AttributeError name)
      end
  end.

Definition object_getattr := getattr.

(** [object.__setattr__(o, name, v)] *)
Definition object_setattr (c : class) (o : obj) (name : string) (v : value)
  : obj * result unit :=
  match c_attrs c !! name with
  | Some (AProperty d) => __set__ d o v
  | Some ASlot => (with_slots o (<[name := v]> (o_slots o)), Ok tt)
  | _ => (with_dict o (<[name := v]> (o_dict o)), Ok tt)
  end.

(** [object.__delattr__(o, name)], what [del o.name] runs: neither
    [PropertyModel] nor [BaseModel] overrides it. *)
Definition object_delattr (c : class) (o : obj) (name : string)
  : obj * result unit :=
  match c_attrs c !! name with
  | Some (AProperty d) => __delete__ d o
  | Some ASlot =>
      match o_slots o !! name with
      | Some _ => (with_slots o (delete name (o_slots o)), Ok tt)
      | None => (o, Raise (AttributeError name))
      end
  | _ =>
      match o_dict o !! name with
      | Some _ => (with_dict o (delete name (o_dict o)), Ok tt)
      | None => (o, Raise (AttributeError name))
      end
  end.

(** [{name: object_getattr(self, name) for name in names}]: the pairs in
    evaluation order; the first read that raises ends the comprehension. *)
Fixpoint read_all (fuel : nat) (c : class) (o : obj) (names : list string)
  : result (list (string * value)) :=
  match names with
  | [] => Ok []
  | name :: rest =>
      match object_getattr fuel c o name with
      | Raise e => Raise e
      | Ok v =>
          match read_all fuel c o rest with
          | Raise e => Raise e
          | Ok kvs => Ok ((name, v) :: kvs)
          end
      end
  end.

(** [d.update(kvs)] on a [__dict__]; a later pair wins over an earlier
    one with the same key. *)
Definition dict_update (d : gmap string value) (kvs : list (string * value))
  : gmap string value :=
  fold_left (fun m kv => <[kv.1 := kv.2]> m) kvs d.

Section SetAttr.

(** [BaseModel.__setattr__], the standard write path of the Model
    System. *)
Variable base_setattr : class -> obj -> string -> value -> obj * result unit.

(** [PropertyModel.__setattr__] *)
Definition __setattr__ (fuel : nat) (h : heap) (c : class) (self : obj)
    (name : string) (v : value) : obj * result unit :=
  match base_setattr c self name v with
  | (o1, Raise e) => (o1, Raise e)
  | (o1, Ok _) =>
      if bool_decide (is_Some (o_dict o1 !! name)) && is_field_property c name
      then
        match object_setattr c o1 name v with
        | (o2, Raise e) => (o2, Raise e)
        | (o2, Ok _) =>
            match read_all fuel c o2 (registry h c) with
            | Raise e => (o2, Raise e)
            | Ok kvs => (with_dict o2 (dict_update (o_dict o2) kvs), Ok tt)
            end
        end
      else (o1, Ok tt)
  end.

End SetAttr.

(** The reads of the registered fields do not consult [__dict__]: they
    go to slots or compute from them. *)
Definition reads_ignore_map (fuel : nat) (h : heap) (c : class) : Prop :=
  forall (o : obj) (d : gmap string value) (n : string),
    n ∈ registry h c ->
    getattr fuel c (with_dict o d) n = getattr fuel c o n.

End Model.

(** ** Class construction: [PropertyModelMetaclass.__new__] *)

Module Meta.
Import Py FieldProperty Model.

(** pydantic's [ModelPrivateAttr], the object a private storage
    declaration leaves in the class body. *)
Record private_attr : Type := {
  pa_default : value;
  pa_default_factory : option factory
}.

(** The entries of a class body that the hook tells apart. *)
Inductive entry : Type :=
| EField (field : field_property)
| EPrivate (decl : private_attr)
| EOther (v : value).

(** A class namespace.  Its [__annotations__] entry is kept apart from
    the other items ([None] when the body annotates nothing); the keys of
    [ns_items] are the remaining names, in declaration order. *)
Record namespace : Type := {
  ns_annotations : option (list (string * value));
  ns_items : list (string * entry)
}.

(** [l.extend(xs)] and [l.append(x)] on the list stored at [l]. *)
Definition list_extend (l : loc) (xs : list string) (h : heap) : heap :=
  alter (fun names => names ++ xs) l h.

Definition list_append (l : loc) (x : string) (h : heap) : heap :=
  alter (fun names => names ++ [x]) l h.

(** [setattr(cls, name, field)] and [cls.__field_properties__ = l] *)
Definition class_setattr (cls : class) (name : string) (a : class_attr)
  : class :=
  {| c_name := c_name cls;
     c_attrs := <[name := a]> (c_attrs cls);
     c_fields := c_fields cls;
     c_registry := c_registry cls |}.

Definition set_registry (cls : class) (l : loc) : class :=
  {| c_name := c_name cls;
     c_attrs := c_attrs cls;
     c_fields := c_fields cls;
     c_registry := Some l |}.

Section Hook.

(** The Model System's primitives: [FieldInfo._validate], [PrivateAttr]
    and the class builder reached through [super().__new__]. *)
Variable validate : field_property -> result unit.
Variable PrivateAttr : value -> option factory -> result private_attr.
Variable type_new : string -> list class -> namespace -> result class.

(** The first loop of [__new__], over the snapshot
    [list(namespace.items())]; [annotations] and [items] are the two
    dictionaries it updates in place.  When a step raises, what was
    written before stays written. *)
Fixpoint register (snapshot : list (string * entry))
    (annotations : list (string * value)) (items : list (string * entry))
  : list (string * value) * list (string * entry) * result unit :=
  match snapshot with
  | [] => (annotations, items, Ok tt)
  | (varname, EField field) :: rest =>
      match validate field with
      | Raise e => (annotations, items, Raise e)
      | Ok _ =>
          let annotated :=
            match dict_get varname annotations with
            | Some _ => Ok annotations
            | None =>
                match get_type field with
                | Raise e => Raise e
                | Ok t => Ok (dict_set varname t annotations)
                end
            end in
          match annotated with
          | Raise e => (annotations, items, Raise e)
          | Ok annotations1 =>
              match private_name field with
              | Some p =>
                  if truthy (private_name field) then
                    match PrivateAttr (default field) (default_factory field) with
                    | Raise e => (annotations1, items, Raise e)
                    | Ok decl =>
                        register rest annotations1
                          (dict_set p (EPrivate decl) items)
                    end
                  else register rest annotations1 items
              | None => register rest annotations1 items
              end
          end
      end
  | _ :: rest => register rest annotations items
  end.

(** [for base in bases: field_properties.extend(getattr(base,
    '__field_properties__', []))] *)
Definition inherit_registries (l : loc) (bases : list class) (h : heap)
  : heap :=
  fold_left (fun h' base => list_extend l (registry h' base) h') bases h.

(** The second loop: re-attach every descriptor of the namespace to the
    new class and append its name to the list at [l]. *)
Fixpoint attach (l : loc) (items : list (string * entry))
    (st : heap * class) : heap * class :=
  match items with
  | [] => st
  | (varname, EField field) :: rest =>
      attach l rest
        (list_append l varname st.1,
         class_setattr st.2 varname (AProperty field))
  | _ :: rest => attach l rest st
  end.

(** [PropertyModelMetaclass.__new__].  The namespace is the caller's
    dictionary and is returned as the hook leaves it; a body without
    [__annotations__] gets a throw-away dictionary for the synthesized
    annotations. *)
Definition __new__ (h : heap) (name : string) (bases : list class)
    (namespace0 : namespace) : namespace * result (heap * class) :=
  let annotations :=
    match ns_annotations namespace0 with
    | Some a => a
    | None => []
    end in
  let '(annotations1, items1, r) :=
    register (ns_items namespace0) annotations (ns_items namespace0) in
  let namespace1 :=
    {| ns_annotations :=
         match ns_annotations namespace0 with
         | Some _ => Some annotations1
         | None => None
         end;
       ns_items := items1 |} in
  match r with
  | Raise e => (namespace1, Raise e)
  | Ok _ =>
      match type_new name bases namespace1 with
      | Raise e => (namespace1, Raise e)
      | Ok new_cls =>
          let field_properties := length h in
          let h1 := h ++ [[]] in
          let h2 := inherit_registries field_properties bases h1 in
          let '(h3, cls) := attach field_properties items1 (h2, new_cls) in
          (namespace1, Ok (h3, set_registry cls field_properties))
      end
  end.

End Hook.

(** The names of the descriptors a namespace holds, in order. *)
Fixpoint descriptor_names (items : list (string * entry)) : list string :=
  match items with
  | [] => []
  | (varname, EField _) :: rest => varname :: descriptor_names rest
  | _ :: rest => descriptor_names rest
  end.

(** The private-slot names the first loop writes to: those of the
    descriptors whose [private_name] is true. *)
Fixpoint slot_names (items : list (string * entry)) : list string :=
  match items with
  | [] => []
  | (_, EField field) :: rest =>
      match private_name field with
      | Some p => if truthy (private_name field) then p :: slot_names rest
                  else slot_names rest
      | None => slot_names rest
      end
  | _ :: rest => slot_names rest
  end.


(** Every list a base class refers to is allocated. *)
Definition heap_closed (h : heap) (bases : list class) : Prop :=
  forall b l, b ∈ bases -> c_registry b = Some l -> l < length h.

End Meta.

(** ** A reference Model System

    The collaborator is pydantic, which is not part of the repository.
    The definitions below follow its contract (section 6 of the
    specification) closely enough to run the repository's test class;
    they are used for examples only. *)

Module ModelSystem.
Import Py FieldProperty Model Meta.

(** Modelled from the spec: the per-field validator of the Model System
    ([FieldInfo._validate]), which raises on an invalid configuration; a
    default and a factory exclude each other. *)
Definition validate (field : field_property) : result unit :=
  if negb (is_undefined (default field)) && is_not_none (default_factory field)
  then Raise (ValueError "cannot specify both default and default_factory")
  else Ok tt.

(** Modelled from the spec: the private-storage declaration primitive
    of the Model System, [PrivateAttr(default=..., default_factory=...)]. *)
Definition PrivateAttr (dflt : value) (fac : option factory)
  : result private_attr :=
  if negb (is_undefined dflt) && is_not_none fac
  then Raise (ValueError "cannot specify both default and default_factory")
  else Ok {| pa_default := dflt; pa_default_factory := fac |}.

(** Names that pydantic accepts as fields. *)
Definition is_valid_field (name : string) : bool :=
  negb (startswith "_" name).

(** The class attributes a body contributes: a slot per private
    declaration and the plain values under non-field names.  Fields are
    taken out of the class namespace. *)
Fixpoint own_attrs (items : list (string * entry))
  : gmap string class_attr :=
  match items with
  | [] => ∅
  | (n, EPrivate _) :: rest => <[n := ASlot]> (own_attrs rest)
  | (n, EOther v) :: rest =>
      if is_valid_field n then own_attrs rest
      else <[n := AValue v]> (own_attrs rest)
  | (_, EField _) :: rest => own_attrs rest
  end.

Fixpoint own_fields (items : list (string * entry)) : list string :=
  match items with
  | [] => []
  | (n, EPrivate _) :: rest => own_fields rest
  | (n, _) :: rest =>
      if is_valid_field n then n :: own_fields rest else own_fields rest
  end.

Fixpoint inherited_attrs (bases : list class) : gmap string class_attr :=
  match bases with
  | [] => ∅
  | b :: rest => c_attrs b ∪ inherited_attrs rest
  end.

Fixpoint inherited_registry (bases : list class) : option loc :=
  match bases with
  | [] => None
  | b :: rest =>
      match c_registry b with
      | Some l => Some l
      | None => inherited_registry rest
      end
  end.

(** Modelled from the spec: the class-construction hook of the Model
    System, reached through [super().__new__].  It reads the namespace,
    turns private declarations into slots and the remaining public names
    into fields, and inherits what its bases have. *)
Definition type_new (name : string) (bases : list class) (ns : namespace)
  : result class :=
  let annotated :=
    match ns_annotations ns with
    | Some a => filter (fun n => is_valid_field n = true) (map fst a)
    | None => []
    end in
  Ok {| c_name := name;
        c_attrs := own_attrs (ns_items ns) ∪ inherited_attrs bases;
        c_fields :=
          remove_dups
            (concat (map c_fields bases) ++ annotated
               ++ own_fields (ns_items ns));
        c_registry := inherited_registry bases |}.

(** Modelled from the spec: the standard attribute-write entry point of
    the Model System ([BaseModel.__setattr__]): a private attribute goes
    to its slot, a field to the materialized map, any other name is
    refused. *)
Definition BaseModel_setattr (c : class) (self : obj) (name : string)
    (v : value) : obj * result unit :=
  match c_attrs c !! name with
  | Some ASlot => object_setattr c self name v
  | _ =>
      if bool_decide (name ∈ c_fields c)
      then (with_dict self (<[name := v]> (o_dict self)), Ok tt)
      else (self, Raise (ValueError "object has no field"))
  end.

Definition BaseModel : class :=
  {| c_name := "BaseModel"; c_attrs := ∅; c_fields := []; c_registry := None |}.

Definition no_constraints : constraints :=
  {| alias := VNone; title := VNone; description := VNone; const := VNone;
     gt := VNone; ge := VNone; lt := VNone; le := VNone;
     multiple_of := VNone; min_items := VNone; max_items := VNone;
     min_length := VNone; max_length := VNone; regex := VNone;
     extra := [] |}.

(** [self.<slot> = v] inside a setter: a private attribute, stored in its
    slot. *)
Definition store_slot (slot : string) : setter_fn :=
  fun o v => (with_slots o (<[slot := v]> (o_slots o)), Ok tt).

(** [getattr(self, slot, dflt)] inside a getter. *)
Definition load_slot (slot : string) (dflt : value) : obj -> result value :=
  fun o =>
    match o_slots o !! slot with
    | Some v => Ok v
    | None => Ok dflt
    end.

(** The class of the repository's test, with integer coupling in the
    setter of [y]: a value of two digits or more leaves its last digit
    in [_x] and the rest in [_y]. *)
Definition prop_x : field_property :=
  setter
    (__init__ (ArgStr "_x") None None (VInt 0) None None None no_constraints)
    (Some (store_slot "_x")).

Definition set_y : setter_fn :=
  fun o v =>
    match v with
    | VInt z =>
        if (10 <=? z)%Z then
          let '(o1, _) := store_slot "_x" o (VInt (z mod 10)) in
          store_slot "_y" o1 (VInt (z / 10))
        else store_slot "_y" o v
    | _ => (o, Raise (TypeError "int() argument"))
    end.

Definition prop_y : field_property :=
  setter
    (getter
       (__init__ (ArgStr "_y") None None (VInt 0) None None None no_constraints)
       (Some (UserGetter (load_slot "_y" (VInt 0)) (Producer (Ok (VInt 0))))))
    (Some set_y).

Definition prop_z : field_property :=
  setter
    (__init__ (ArgFun (load_slot "_z" (VInt 0)) SigEmpty) None None (VInt 0)
       None None None no_constraints)
    (Some (store_slot "_z")).

Definition Props_body : namespace :=
  {| ns_annotations := Some [("x", VClass "int"); ("y", VClass "int")];
     ns_items :=
       [("x", EField prop_x); ("y", EField prop_y); ("z", EField prop_z);
        ("_z", EPrivate {| pa_default := VInt 0; pa_default_factory := None |})]
  |}.

Definition hook := __new__ validate PrivateAttr type_new.

Definition built_class (b : namespace * result (heap * class)) : class :=
  match b.2 with
  | Ok (_, c) => c
  | Raise _ => BaseModel
  end.

Definition built_heap (b : namespace * result (heap * class)) : heap :=
  match b.2 with
  | Ok (h, _) => h
  | Raise _ => []
  end.

(** [class PropertyModel(BaseModel, metaclass=PropertyModelMetaclass)] *)
Definition PropertyModel_built : namespace * result (heap * class) :=
  hook [] "PropertyModel" [BaseModel]
    {| ns_annotations := None; ns_items := [] |}.

Definition PropertyModel : class := built_class PropertyModel_built.
Definition heap0 : heap := built_heap PropertyModel_built.

(** [class Props(PropertyModel)] *)
Definition Props_built : namespace * result (heap * class) :=
  hook heap0 "Props" [PropertyModel] Props_body.

Definition Props : class := built_class Props_built.
Definition heap1 : heap := built_heap Props_built.

(** A class whose only property has neither setter nor deleter:
    [x: int = field_property('_x', default=0)]. *)
Definition bare_x : field_property :=
  __init__ (ArgStr "_x") None None (VInt 0) None None None no_constraints.

Definition ReadOnly_built : namespace * result (heap * class) :=
  hook heap1 "ReadOnly" [PropertyModel]
    {| ns_annotations := Some [("x", VClass "int")];
       ns_items := [("x", EField bare_x)] |}.

Definition ReadOnly : class := built_class ReadOnly_built.
Definition heap2 : heap := built_heap ReadOnly_built.

Definition r0 : obj :=
  {| o_dict := {[ "x" := VInt 0 ]}; o_slots := {[ "_x" := VInt 0 ]} |}.

(** A class with a second property [w: int = field_property('_w')]
    that has no default: its slot stays unset until someone writes it. *)
Definition bare_w : field_property :=
  __init__ (ArgStr "_w") None None VUndefined None None None no_constraints.

Definition Strict_built : namespace * result (heap * class) :=
  hook heap2 "Strict" [PropertyModel]
    {| ns_annotations := Some [("x", VClass "int"); ("w", VClass "int")];
       ns_items := [("x", EField prop_x); ("w", EField bare_w)] |}.

Definition Strict : class := built_class Strict_built.
Definition heap3 : heap := built_heap Strict_built.

Definition s0 : obj :=
  {| o_dict := {[ "x" := VInt 0; "w" := VInt 3 ]};
     o_slots := {[ "_x" := VInt 0 ]} |}.

(** A class whose getter of [y] looks [x] up in the map itself, and
    whose setter of [x] stores no negative number. *)
Definition clamp_x : setter_fn :=
  fun o v =>
    match v with
    | VInt z => store_slot "_x" o (VInt (Z.max 0 z))
    | _ => (o, Raise (TypeError "int expected"))
    end.

Definition succ_of_map_x : obj -> result value :=
  fun o =>
    match o_dict o !! "x" with
    | Some (VInt z) => Ok (VInt (z + 1))
    | _ => Raise (UserError "x is not an int")
    end.

Definition Mirror_built : namespace * result (heap * class) :=
  hook heap3 "Mirror" [PropertyModel]
    {| ns_annotations := Some [("x", VClass "int"); ("y", VClass "int")];
       ns_items :=
         [("x", EField (setter bare_x (Some clamp_x)));
          ("y", EField (__init__ (ArgFun succ_of_map_x SigEmpty) None None
                          (VInt 1) None None None no_constraints))] |}.

Definition Mirror : class := built_class Mirror_built.
Definition heap4 : heap := built_heap Mirror_built.

Definition m0 : obj :=
  {| o_dict := {[ "x" := VInt 0; "y" := VInt 1 ]};
     o_slots := {[ "_x" := VInt 0 ]} |}.

(** [class Child(Props)] overriding [x] with a new descriptor. *)
Definition child_x : field_property :=
  setter
    (__init__ (ArgStr "_x") None None (VInt 1) None None None no_constraints)
    (Some (store_slot "_x")).

Definition Child_body : namespace :=
  {| ns_annotations := Some [("x", VClass "int")];
     ns_items := [("x", EField child_x)] |}.

Definition Child_built : namespace * result (heap * class) :=
  hook heap4 "Child" [Props] Child_body.

(** [Props()]: the defaults of the fields in [__dict__], those of the
    private attributes in the slots. *)
Definition p0 : obj :=
  {| o_dict := {[ "x" := VInt 0; "y" := VInt 0; "z" := VInt 0 ]};
     o_slots := {[ "_x" := VInt 0; "_y" := VInt 0; "_z" := VInt 0 ]} |}.

Definition setattr := __setattr__ BaseModel_setattr.

(** [s0.x = 1], step by step: after the standard write, after the
    setter. *)
Definition s1 : obj := with_dict s0 (<["x" := VInt 1]> (o_dict s0)).
Definition s2 : obj := with_slots s1 (<["_x" := VInt 1]> (o_slots s1)).

(** [p0.y = 15] *)
Definition p1 : obj := (setattr 5 heap1 Props p0 "y" (VInt 15)).1.

(** A body that declares [_x] itself before the property that names it
    as its slot. *)
Definition explicit_x : private_attr :=
  {| pa_default := VInt 1; pa_default_factory := None |}.

Definition explicit_items : list (string * entry) :=
  [("_x", EPrivate explicit_x); ("x", EField bare_x)].

End ModelSystem.



(** ** Further example objects *)

Module Cases.
Import Py FieldProperty Model Meta ModelSystem.

(** [field_property('_x', default=5, default_factory=lambda: 7)] *)
Definition both_x : field_property :=
  __init__ (ArgStr "_x") None None (VInt 5) None None
    (Some (Producer (Ok (VInt 7)))) no_constraints.

(** [class Plain: x = field_property('x')], a class outside pydantic
    whose descriptor names its own attribute as its slot. *)
Definition self_x : field_property :=
  __init__ (ArgStr "x") None None VUndefined None None None no_constraints.

Definition Plain : class :=
  {| c_name := "Plain";
     c_attrs := {[ "x" := AProperty self_x ]};
     c_fields := [];
     c_registry := None |}.

Definition plain0 : obj := {| o_dict := ∅; o_slots := ∅ |}.

(** A body without any annotation:
    [z = field_property(default=0)] with its getter and setter, and
    [_z = PrivateAttr(default=0)]. *)
Definition Bare_body : namespace :=
  {| ns_annotations := None;
     ns_items :=
       [("z", EField prop_z);
        ("_z", EPrivate {| pa_default := VInt 0; pa_default_factory := None |})]
  |}.

Definition Bare_built : namespace * result (heap * class) :=
  hook heap4 "Bare" [PropertyModel] Bare_body.

(** A body whose descriptor [x] names the attribute of the descriptor
    [y] as its slot: [x = field_property('y', default=0)],
    [y = field_property('_y', default=0)]. *)
Definition crossed_items : list (string * entry) :=
  [("x", EField (__init__ (ArgStr "y") None None (VInt 0) None None None
                   no_constraints));
   ("y", EField (__init__ (ArgStr "_y") None None (VInt 0) None None None
                   no_constraints))].

(** A body whose only descriptor the validator refuses. *)
Definition refused_body : namespace :=
  {| ns_annotations := Some [("x", VClass "int")];
     ns_items := [("x", EField both_x)] |}.

(** The error of the reference validator. *)
Definition both_error : exn :=
  ValueError "cannot specify both default and default_factory".

(** [p0.x = 2] and [r0.x = 4] after the standard write. *)
Definition p0_x2 : obj := (setattr 5 heap1 Props p0 "x" (VInt 2)).1.
Definition r0_x4 : obj := with_dict r0 (<["x" := VInt 4]> (o_dict r0)).

(** [p0.y = 'a'] after the standard write. *)
Definition p0_ya : obj := with_dict p0 (<["y" := VStr "a"]> (o_dict p0)).

End Cases.

(** * Properties *)

Import Py FieldProperty Model Meta.

(** ** The descriptor *)

Section Descriptor.

Implicit Types (self : field_property) (i : instance) (o : obj).

Lemma startswith_one_char (a : Ascii.ascii) (s : string) :
  startswith (String a EmptyString) s = true ->
  s = String a (drop_first s).
Proof.
  destruct s as [|b rest]; simpl; [discriminate|].
  destruct (Ascii.ascii_dec a b) as [->|]; [reflexivity|discriminate].
Qed.

(** C9: [__set_name__] stores the bound attribute name in [public_name]
    and leaves every other slot of the descriptor as it was; in
    particular [private_name] is unchanged. *)
Theorem set_name_only_binds_public_name self (owner name : string) :
  public_name (__set_name__ self owner name) = Some name
  /\ private_name (__set_name__ self owner name) = private_name self
  /\ fget (__set_name__ self owner name) = fget self
  /\ fset (__set_name__ self owner name) = fset self
  /\ fdel (__set_name__ self owner name) = fdel self
  /\ default (__set_name__ self owner name) = default self
  /\ default_factory (__set_name__ self owner name) = default_factory self
  /\ info (__set_name__ self owner name) = info self.
Proof. repeat split. Qed.

(** C6: a descriptor built from a slot name that starts with one
    underscore and not two gets, when no [public_name] is passed, the
    slot name without that underscore as its [public_name]; a
    [public_name] that is passed is kept.  The slot name itself becomes
    [private_name]. *)
Theorem init_public_name_strips_marker (s : string)
    (fset0 : option setter_fn) (fdel0 : option deleter_fn) (default0 : value)
    (public_name0 private_name0 : option string)
    (default_factory0 : option factory) (cs : constraints) :
  startswith "_" s = true ->
  startswith "__" s = false ->
  let self := __init__ (ArgStr s) fset0 fdel0 default0 public_name0
                private_name0 default_factory0 cs in
  private_name self = Some s
  /\ match public_name0 with
     | Some p => public_name self = Some p
     | None =>
         exists rest, s = String "_"%char rest /\ public_name self = Some rest
     end.
Proof.
  intros Hone Htwo self. subst self. unfold __init__.
  destruct (negb (is_undefined default0) && is_not_none default_factory0);
    simpl; (split; [reflexivity|]).
  all: destruct public_name0 as [p|]; [reflexivity|].
  all: rewrite Hone, Htwo; simpl.
  all: exists (drop_first s); split;
    [exact (startswith_one_char _ _ Hone) | reflexivity].
Qed.

Lemma init_public_name_strips_marker_witness :
  startswith "_" "_x" = true
  /\ startswith "__" "_x" = false
  /\ public_name ModelSystem.bare_x = Some "x"
  /\ private_name ModelSystem.bare_x = Some "_x".
Proof.
  pose proof (init_public_name_strips_marker "_x" None None (VInt 0) None None
                None ModelSystem.no_constraints eq_refl eq_refl) as [Hpriv Hpub].
  destruct Hpub as (rest & Hrest & Hpub).
  injection Hrest as <-.
  repeat split; assumption.
Defined.

Lemma init_fget fget0 fset0 fdel0 default0 public_name0 private_name0
    default_factory0 cs :
  fget (__init__ fget0 fset0 fdel0 default0 public_name0 private_name0
          default_factory0 cs)
  = Some match fget0 with
         | ArgNone | ArgStr _ => InternalGetter
         | ArgFun f ann => UserGetter f ann
         end.
Proof.
  unfold __init__.
  destruct fget0; simpl;
    destruct (negb (is_undefined default0) && is_not_none default_factory0);
    reflexivity.
Qed.

Lemma declared_has_getter self : declared self -> is_Some (fget self).
Proof.
  induction 1 as [fget0 fset0 fdel0 default0 pub priv fac cs
                 | self g _ _ | self f _ IH | self f _ IH | self owner name _ IH];
    simpl; eauto.
  rewrite init_fget. eauto.
Qed.

(** C10: after construction [fget] is never null: a [None] or string
    argument is replaced by the internal getter and a function is kept.
    The builders other than [getter] and the binding step do not touch
    [fget], so on every descriptor declared without a null getter a
    read through [__get__] on an instance calls the getter; the
    unreadable-attribute branch is the one taken after the [getter]
    builder has attached a null getter. *)
Theorem constructed_descriptor_is_readable :
  (forall fget0 fset0 fdel0 default0 public_name0 private_name0
          default_factory0 cs,
      fget (__init__ fget0 fset0 fdel0 default0 public_name0 private_name0
              default_factory0 cs)
      = Some match fget0 with
             | ArgNone | ArgStr _ => InternalGetter
             | ArgFun f ann => UserGetter f ann
             end)
  /\ (forall self, declared self ->
        exists g, fget self = Some g
                  /\ forall i, __get__ self (Some i)
                               = inr (call_getter self g i))
  /\ (forall self i,
        fget (getter self None) = None
        /\ __get__ (getter self None) (Some i)
           = inr (Raise (AttributeError "unreadable attribute"))).
Proof.
  split; [exact init_fget|].
  split; [|intros self i; split; reflexivity].
  intros self Hdecl. destruct (declared_has_getter self Hdecl) as [g Hg].
  exists g. split; [exact Hg|].
  intros i. simpl. unfold read. rewrite Hg. reflexivity.
Qed.

Lemma constructed_descriptor_is_readable_witness :
  declared ModelSystem.prop_x
  /\ exists g, fget ModelSystem.prop_x = Some g
       /\ forall i, __get__ ModelSystem.prop_x (Some i)
                    = inr (call_getter ModelSystem.prop_x g i).
Proof.
  assert (Hd : declared ModelSystem.prop_x)
    by (apply declared_setter, declared_init).
  split; [exact Hd|].
  exact (proj1 (proj2 constructed_descriptor_is_readable) _ Hd).
Defined.

(** When the private slot is missing and a default resolves, the
    internal getter returns [None], whatever the default is. *)
Lemma internal_getter_missing_slot self i (p msg : string) (dflt : value) :
  private_name self = Some p ->
  inst_getattr i p = Raise (AttributeError msg) ->
  get_default self = Ok dflt ->
  is_undefined dflt = false ->
  internal_getter self i = Ok VNone.
Proof.
  intros Hp Hmiss Hd Hu. unfold internal_getter.
  rewrite Hp, Hmiss, Hd, Hu. reflexivity.
Qed.

(** With no default to resolve, the missing-attribute error is the one
    the read raises. *)
Lemma internal_getter_no_default self i (p msg : string) :
  private_name self = Some p ->
  inst_getattr i p = Raise (AttributeError msg) ->
  get_default self = Ok VUndefined ->
  internal_getter self i = Raise (AttributeError msg).
Proof.
  intros Hp Hmiss Hd. unfold internal_getter.
  rewrite Hp, Hmiss, Hd. reflexivity.
Qed.

(** C2: on the test class, once the slot [_x] of an instance is gone
    ([del p._x]), reading [p.x] returns [None] although the default of
    [x] resolves to [0]. *)
Theorem read_of_missing_slot_drops_default :
  let p := with_slots ModelSystem.p0 (delete "_x" (o_slots ModelSystem.p0)) in
  object_delattr ModelSystem.Props ModelSystem.p0 "_x" = (p, Ok tt)
  /\ get_default ModelSystem.prop_x = Ok (VInt 0)
  /\ getattr 2 ModelSystem.Props p "x" = Ok VNone.
Proof. vm_compute. repeat split. Qed.

End Descriptor.

(** ** Instances *)

Section Refresh.

Variables (fuel : nat) (c : class).
Implicit Types (o : obj) (names : list string) (kvs : list (string * value)).

Lemma read_all_ok o names kvs :
  read_all fuel c o names = Ok kvs ->
  map fst kvs = names
  /\ forall k x, (k, x) ∈ kvs -> getattr fuel c o k = Ok x.
Proof.
  revert kvs. induction names as [|n rest IH]; simpl; intros kvs H.
  - injection H as <-. split; [reflexivity|]. intros k x Hin. inversion Hin.
  - unfold object_getattr in H.
    destruct (getattr fuel c o n) as [x0|e] eqn:Hn; [|discriminate].
    destruct (read_all fuel c o rest) as [kvs0|e]; [|discriminate].
    injection H as <-. destruct (IH kvs0 eq_refl) as [Hk Hv].
    split; [simpl; congruence|].
    intros k x Hin. apply elem_of_cons in Hin as [Heq|Hin].
    + injection Heq as -> ->. exact Hn.
    + eauto.
Qed.

Lemma read_all_raise o names e :
  read_all fuel c o names = Raise e ->
  exists pre n post,
    names = pre ++ n :: post
    /\ (forall m, m ∈ pre -> exists x, getattr fuel c o m = Ok x)
    /\ getattr fuel c o n = Raise e.
Proof.
  induction names as [|n rest IH]; simpl; intros H; [discriminate|].
  unfold object_getattr in H.
  destruct (getattr fuel c o n) as [x0|e0] eqn:Hn.
  - destruct (read_all fuel c o rest) as [kvs0|e1]; [discriminate|].
    injection H as ->. destruct (IH eq_refl) as (pre & m & post & -> & Hpre & Hm).
    exists (n :: pre), m, post. split; [reflexivity|]. split; [|exact Hm].
    intros k Hk. apply elem_of_cons in Hk as [->|Hk]; eauto.
  - injection H as ->. exists [], n, rest. split; [reflexivity|].
    split; [|exact Hn]. intros m Hm. inversion Hm.
Qed.

Lemma dict_update_cons (d : gmap string value) k x kvs :
  dict_update d ((k, x) :: kvs) = dict_update (<[k := x]> d) kvs.
Proof. reflexivity. Qed.

Lemma dict_update_other (d : gmap string value) kvs k :
  k ∉ map fst kvs -> dict_update d kvs !! k = d !! k.
Proof.
  revert d. induction kvs as [|[k0 x0] rest IH]; intros d Hk; [reflexivity|].
  rewrite dict_update_cons, IH.
  - apply lookup_insert_ne. intros ->. apply Hk. simpl. left.
  - intros Hin. apply Hk. simpl. right. exact Hin.
Qed.

(** Updating with pairs that all come from one function [f] leaves
    [f k] under every key [k] of the pairs. *)
Lemma dict_update_functional (f : string -> result value)
    (d : gmap string value) kvs k :
  (forall k' x, (k', x) ∈ kvs -> f k' = Ok x) ->
  k ∈ map fst kvs ->
  exists x, f k = Ok x /\ dict_update d kvs !! k = Some x.
Proof.
  revert d. induction kvs as [|[k0 x0] rest IH]; intros d Hf Hk.
  - inversion Hk.
  - rewrite dict_update_cons.
    destruct (decide (k ∈ map fst rest)) as [Hin|Hout].
    + apply IH; [|exact Hin]. intros k' x Hx. apply Hf. right. exact Hx.
    + simpl in Hk. apply elem_of_cons in Hk as [->|Hk]; [|contradiction].
      exists x0. split; [apply Hf; left|].
      rewrite dict_update_other by exact Hout. apply lookup_insert_eq.
Qed.

Lemma refresh_lookup o names kvs :
  read_all fuel c o names = Ok kvs ->
  forall n, n ∈ names ->
    exists x, getattr fuel c o n = Ok x
              /\ dict_update (o_dict o) kvs !! n = Some x.
Proof.
  intros H n Hn. destruct (read_all_ok _ _ _ H) as [Hkeys Hvals].
  apply dict_update_functional; [exact Hvals|]. rewrite Hkeys. exact Hn.
Qed.

Lemma refresh_frame o names kvs :
  read_all fuel c o names = Ok kvs ->
  forall k, k ∉ names -> dict_update (o_dict o) kvs !! k = o_dict o !! k.
Proof.
  intros H k Hk. destruct (read_all_ok _ _ _ H) as [Hkeys _].
  apply dict_update_other. rewrite Hkeys. exact Hk.
Qed.

End Refresh.

Section Write.

Variable base_setattr : class -> obj -> string -> value -> obj * result unit.
Variables (fuel : nat) (h : heap) (c : class).

Local Abbreviation write := (__setattr__ base_setattr fuel h c).

(** A write under a name that is no field property of the class is the
    standard write and nothing more. *)
Lemma write_of_other_name o (name : string) (v : value) :
  is_field_property c name = false ->
  write o name v = base_setattr c o name v.
Proof.
  intros Hp. unfold __setattr__.
  destruct (base_setattr c o name v) as [o1 [[]|e]]; [|reflexivity].
  rewrite Hp, andb_false_r. reflexivity.
Qed.

(** The shape of a write that reaches the refresh step. *)
Lemma write_reaches_refresh o o1 o2 (name : string) (v : value) :
  base_setattr c o name v = (o1, Ok tt) ->
  is_Some (o_dict o1 !! name) ->
  is_field_property c name = true ->
  object_setattr c o1 name v = (o2, Ok tt) ->
  write o name v =
    match read_all fuel c o2 (registry h c) with
    | Raise e => (o2, Raise e)
    | Ok kvs => (with_dict o2 (dict_update (o_dict o2) kvs), Ok tt)
    end.
Proof.
  intros Hb Hin Hp Hs. unfold __setattr__.
  rewrite Hb, Hp, (bool_decide_eq_true_2 _ Hin), Hs. reflexivity.
Qed.

(** C5: once a write has reached the refresh step, a registered read
    that raises aborts the write with the error of the first read that
    fails, and the instance is left as the setter left it: the refresh
    has written nothing.  Otherwise every key of the registry holds its
    re-read value and no other key has changed. *)
Theorem refresh_is_all_or_nothing o o1 o2 (name : string) (v : value) :
  base_setattr c o name v = (o1, Ok tt) ->
  is_Some (o_dict o1 !! name) ->
  is_field_property c name = true ->
  object_setattr c o1 name v = (o2, Ok tt) ->
  (forall n e, n ∈ registry h c -> getattr fuel c o2 n = Raise e ->
     exists e', write o name v = (o2, Raise e'))
  /\ ((exists e pre n post,
         registry h c = pre ++ n :: post
         /\ (forall m, m ∈ pre -> exists x, getattr fuel c o2 m = Ok x)
         /\ getattr fuel c o2 n = Raise e
         /\ write o name v = (o2, Raise e))
      \/ (exists o3,
            write o name v = (o3, Ok tt)
            /\ o_slots o3 = o_slots o2
            /\ (forall n, n ∈ registry h c ->
                  exists x, getattr fuel c o2 n = Ok x
                            /\ o_dict o3 !! n = Some x)
            /\ (forall k, k ∉ registry h c -> o_dict o3 !! k = o_dict o2 !! k))).
Proof.
  intros Hb Hin Hp Hs.
  rewrite (write_reaches_refresh _ _ _ _ _ Hb Hin Hp Hs).
  destruct (read_all fuel c o2 (registry h c)) as [kvs|e] eqn:Hr.
  - split.
    + intros n e Hn He.
      destruct (refresh_lookup _ _ _ _ _ Hr n Hn) as (x & Hx & _). congruence.
    + right. eexists. split; [reflexivity|]. split; [reflexivity|]. split.
      * intros n Hn. exact (refresh_lookup _ _ _ _ _ Hr n Hn).
      * intros k Hk. exact (refresh_frame _ _ _ _ _ Hr k Hk).
  - split; [eauto|]. left.
    destruct (read_all_raise _ _ _ _ _ Hr) as (pre & n & post & Hreg & Hpre & Hn).
    exists e, pre, n, post. auto.
Qed.


End Write.

(** C7: deleting a field whose descriptor has no deleter raises the
    "can't delete attribute" error and returns the instance as it was,
    its map included; setting through a descriptor without a setter
    raises the "can't set attribute" error, on the descriptor and
    through [object.__setattr__] alike. *)
Theorem delete_without_deleter_changes_nothing (c : class) (o : obj)
    (name : string) (d : field_property) :
  c_attrs c !! name = Some (AProperty d) ->
  (fdel d = None ->
     object_delattr c o name = (o, Raise (AttributeError "can't delete attribute")))
  /\ (fset d = None ->
        forall v, __set__ d o v = (o, Raise (AttributeError "can't set attribute"))
                  /\ object_setattr c o name v
                     = (o, Raise (AttributeError "can't set attribute"))).
Proof.
  intros Hc. unfold object_delattr, object_setattr, __delete__, __set__.
  rewrite Hc. split; intros ->; auto.
Qed.

Lemma delete_without_deleter_changes_nothing_witness :
  c_attrs ModelSystem.ReadOnly !! "x" = Some (AProperty ModelSystem.bare_x)
  /\ fdel ModelSystem.bare_x = None
  /\ fset ModelSystem.bare_x = None
  /\ object_delattr ModelSystem.ReadOnly ModelSystem.r0 "x"
     = (ModelSystem.r0, Raise (AttributeError "can't delete attribute"))
  /\ object_setattr ModelSystem.ReadOnly ModelSystem.r0 "x" (VInt 4)
     = (ModelSystem.r0, Raise (AttributeError "can't set attribute")).
Proof.
  assert (Hc : c_attrs ModelSystem.ReadOnly !! "x"
               = Some (AProperty ModelSystem.bare_x))
    by (vm_compute; reflexivity).
  destruct (delete_without_deleter_changes_nothing ModelSystem.ReadOnly
              ModelSystem.r0 "x" ModelSystem.bare_x Hc) as [Hdel Hset].
  split; [exact Hc|]. split; [reflexivity|]. split; [reflexivity|].
  split; [exact (Hdel eq_refl) | exact (proj2 (Hset eq_refl (VInt 4)))].
Defined.

Import ModelSystem.

Lemma refresh_is_all_or_nothing_witness :
  BaseModel_setattr Strict s0 "x" (VInt 1) = (s1, Ok tt)
  /\ is_Some (o_dict s1 !! "x")
  /\ is_field_property Strict "x" = true
  /\ object_setattr Strict s1 "x" (VInt 1) = (s2, Ok tt)
  /\ "w" ∈ registry heap3 Strict
  /\ getattr 5 Strict s2 "w" = Raise (AttributeError "_w")
  /\ exists e, setattr 5 heap3 Strict s0 "x" (VInt 1) = (s2, Raise e).
Proof.
  assert (H1 : BaseModel_setattr Strict s0 "x" (VInt 1) = (s1, Ok tt))
    by (vm_compute; reflexivity).
  assert (H2 : is_Some (o_dict s1 !! "x"))
    by (exists (VInt 1); vm_compute; reflexivity).
  assert (H3 : is_field_property Strict "x" = true)
    by (vm_compute; reflexivity).
  assert (H4 : object_setattr Strict s1 "x" (VInt 1) = (s2, Ok tt))
    by (vm_compute; reflexivity).
  assert (H5 : "w" ∈ registry heap3 Strict)
    by (change (registry heap3 Strict) with ["x"; "w"]; set_solver).
  assert (H6 : getattr 5 Strict s2 "w" = Raise (AttributeError "_w"))
    by (vm_compute; reflexivity).
  repeat (split; [assumption|]).
  exact (proj1 (refresh_is_all_or_nothing BaseModel_setattr 5 heap3 Strict
                  s0 s1 s2 "x" (VInt 1) H1 H2 H3 H4) "w" _ H5 H6).
Defined.

Lemma Props_reads_ignore_map : reads_ignore_map 5 heap1 Props.
Proof.
  intros o d n Hn. change (registry heap1 Props) with ["x"; "y"; "z"] in Hn.
  repeat (apply elem_of_cons in Hn as [->|Hn]); [ | | |inversion Hn];
    vm_compute; reflexivity.
Qed.


(** The coupled write of the test: [p.y = 15] leaves [5] in [x] and [1]
    in [y], in the map and on the instance alike. *)
Example coupled_write :
  o_dict p1 !! "x" = Some (VInt 5) /\ o_dict p1 !! "y" = Some (VInt 1)
  /\ getattr 5 Props p1 "x" = Ok (VInt 5)
  /\ getattr 5 Props p1 "y" = Ok (VInt 1).
Proof. vm_compute. repeat split. Qed.


(** A getter that reads the map is outside the amended statement: after
    [m.x = -3] the map holds [-2] under [y] while the read of [y]
    yields [1]. *)
Example map_reading_getter_goes_stale :
  let r := setattr 5 heap4 Mirror m0 "x" (VInt (-3)) in
  r.2 = Ok tt
  /\ o_dict r.1 !! "y" = Some (VInt (-2))
  /\ getattr 5 Mirror r.1 "y" = Ok (VInt 1).
Proof. vm_compute. repeat split. Qed.

(** ** Class construction *)

Section Namespace.

Context {V : Type}.
Implicit Types (l : list (string * V)) (k : string) (v : V).

Lemma dict_get_set_eq k v l : dict_get k (dict_set k v l) = Some v.
Proof.
  induction l as [|[k0 v0] rest IH]; simpl.
  - rewrite decide_True by reflexivity. reflexivity.
  - destruct (decide (k0 = k)) as [->|Hne]; simpl.
    + rewrite decide_True by reflexivity. reflexivity.
    + rewrite decide_False by exact Hne. exact IH.
Qed.

Lemma dict_get_set_ne k k' v l :
  k <> k' -> dict_get k' (dict_set k v l) = dict_get k' l.
Proof.
  intros Hne. induction l as [|[k0 v0] rest IH]; simpl.
  - rewrite decide_False by exact Hne. reflexivity.
  - destruct (decide (k0 = k)) as [->|Hk]; simpl.
    + rewrite !decide_False by exact Hne. reflexivity.
    + destruct (decide (k0 = k')); [reflexivity|exact IH].
Qed.

Lemma dict_set_key k v l x :
  x ∈ map fst (dict_set k v l) <-> x = k \/ x ∈ map fst l.
Proof.
  induction l as [|[k0 v0] rest IH]; simpl.
  - rewrite list_elem_of_singleton, elem_of_nil. tauto.
  - destruct (decide (k0 = k)) as [->|Hk]; simpl.
    + rewrite elem_of_cons. tauto.
    + rewrite !elem_of_cons, IH. tauto.
Qed.

Lemma dict_set_NoDup k v l :
  NoDup (map fst l) -> NoDup (map fst (dict_set k v l)).
Proof.
  induction l as [|[k0 v0] rest IH]; simpl; intros Hnd.
  - apply NoDup_singleton.
  - apply NoDup_cons in Hnd as [Hk0 Hrest].
    destruct (decide (k0 = k)) as [->|Hk]; simpl.
    + apply NoDup_cons. split; assumption.
    + apply NoDup_cons. split; [|exact (IH Hrest)].
      rewrite dict_set_key. intros [->|Hin]; [apply Hk; reflexivity|].
      exact (Hk0 Hin).
Qed.

End Namespace.

Section Registration.

Variable validate : field_property -> result unit.
Variable PrivateAttr : value -> option factory -> result private_attr.
Variable type_new : string -> list class -> namespace -> result class.

Implicit Types (snapshot items : list (string * entry))
  (annotations : list (string * value))
  (writes : list (string * private_attr)).

(** The private declarations the first loop stores, one after the
    other. *)
Local Abbreviation stores writes items :=
  (fold_left (fun acc w => dict_set w.1 (EPrivate w.2) acc) writes items).

(** A declaration comes from a descriptor of the snapshot that names
    the slot. *)
Local Abbreviation from_descriptor snapshot p decl :=
  (exists varname field,
      (varname, EField field) ∈ snapshot
      /\ private_name field = Some p
      /\ PrivateAttr (default field) (default_factory field) = Ok decl).

Lemma register_stores snapshot :
  forall annotations items annotations' items',
    register validate PrivateAttr snapshot annotations items
    = (annotations', items', Ok tt) ->
    exists writes,
      items' = stores writes items
      /\ map fst writes = slot_names snapshot
      /\ forall p decl, (p, decl) ∈ writes -> from_descriptor snapshot p decl.
Proof.
  induction snapshot as [|[varname e] rest IH];
    intros annotations items annotations' items' H; simpl in H.
  - injection H as <- <-. exists []. repeat split.
    intros p decl Hin. inversion Hin.
  - assert (Hskip : forall a i,
               register validate PrivateAttr rest a i
               = (annotations', items', Ok tt) ->
               exists writes,
                 items' = stores writes i
                 /\ map fst writes = slot_names rest
                 /\ forall p decl, (p, decl) ∈ writes ->
                      from_descriptor ((varname, e) :: rest) p decl).
    { intros a i Hr. destruct (IH _ _ _ _ Hr) as (writes & Hi & Hk & Hprov).
      exists writes. split; [exact Hi|]. split; [exact Hk|].
      intros p decl Hin.
      destruct (Hprov p decl Hin) as (n & f & Hn & Hf).
      exists n, f. split; [right; exact Hn|exact Hf]. }
    destruct e as [field|decl0|v]; [|exact (Hskip _ _ H)..].
    destruct (validate field); [|discriminate].
    destruct (match dict_get varname annotations with
              | Some _ => Ok annotations
              | None => _
              end) as [annotations1|]; [|discriminate].
    simpl slot_names.
    destruct (private_name field) as [p|] eqn:Hp; [|exact (Hskip _ _ H)].
    destruct (truthy (Some p)); [|exact (Hskip _ _ H)].
    destruct (PrivateAttr (default field) (default_factory field))
      as [decl|] eqn:Hd; [|discriminate].
    destruct (IH _ _ _ _ H) as (writes & Hi & Hk & Hprov).
    exists ((p, decl) :: writes). split; [exact Hi|].
    split; [simpl; congruence|].
    intros p' decl' Hin. apply elem_of_cons in Hin as [Heq|Hin].
    + injection Heq as -> ->. exists varname, field.
      split; [left|]. split; assumption.
    + destruct (Hprov p' decl' Hin) as (n & f & Hn & Hf).
      exists n, f. split; [right; exact Hn|exact Hf].
Qed.

Lemma stores_other writes items k :
  k ∉ map fst writes -> dict_get k (stores writes items) = dict_get k items.
Proof.
  revert items. induction writes as [|[p decl] rest IH]; intros items Hk;
    [reflexivity|].
  simpl. rewrite IH by (intros Hin; apply Hk; right; exact Hin).
  apply dict_get_set_ne. intros ->. apply Hk. left.
Qed.

Lemma stores_written writes items k :
  k ∈ map fst writes ->
  exists decl, (k, decl) ∈ writes
               /\ dict_get k (stores writes items) = Some (EPrivate decl).
Proof.
  revert items. induction writes as [|[p decl] rest IH]; intros items Hk.
  - inversion Hk.
  - simpl. destruct (decide (k ∈ map fst rest)) as [Hin|Hout].
    + destruct (IH (dict_set p (EPrivate decl) items) Hin) as (d & Hd & Hget).
      exists d. split; [right; exact Hd|exact Hget].
    + simpl in Hk. apply elem_of_cons in Hk as [->|Hk]; [|contradiction].
      exists decl. split; [left|].
      rewrite stores_other by exact Hout. apply dict_get_set_eq.
Qed.

Lemma stores_NoDup writes items :
  NoDup (map fst items) -> NoDup (map fst (stores writes items)).
Proof.
  revert items. induction writes as [|[p decl] rest IH]; intros items Hnd;
    [exact Hnd|].
  simpl. apply IH, dict_set_NoDup, Hnd.
Qed.



(** C3 (amended): when the first loop completes, the namespace holds,
    under the private-slot name of every descriptor whose
    [private_name] is true, a private storage declaration made from the
    default and factory of a descriptor that names this slot, whether
    or not the body declared the name before; every other key is
    untouched. *)
Theorem register_stores_private_slots snapshot annotations items
    annotations' items' :
  register validate PrivateAttr snapshot annotations items
  = (annotations', items', Ok tt) ->
  (forall p, p ∈ slot_names snapshot ->
     exists decl, from_descriptor snapshot p decl
                  /\ dict_get p items' = Some (EPrivate decl))
  /\ (forall k, k ∉ slot_names snapshot -> dict_get k items' = dict_get k items).
Proof.
  intros H. destruct (register_stores _ _ _ _ _ H) as (writes & -> & Hk & Hprov).
  rewrite <- Hk. split.
  - intros p Hp. destruct (stores_written writes items p Hp) as (decl & Hin & Hget).
    exists decl. split; [exact (Hprov p decl Hin)|exact Hget].
  - intros k Hout. exact (stores_other writes items k Hout).
Qed.

(** A descriptor without annotation whose type is not inferable passes
    the first loop: the loop records the [Undefined] sentinel as its
    annotation and raises nothing. *)
Lemma register_records_unset_type (varname : string) (field : field_property)
    annotations items :
  validate field = Ok tt ->
  dict_get varname annotations = None ->
  get_type field = Ok VUndefined ->
  private_name field = None ->
  register validate PrivateAttr [(varname, EField field)] annotations items
  = (dict_set varname VUndefined annotations, items, Ok tt).
Proof.
  intros Hv Ha Ht Hp. simpl. rewrite Hv, Ha, Ht, Hp. reflexivity.
Qed.

End Registration.

Section Construction.

Variable validate : field_property -> result unit.
Variable PrivateAttr : value -> option factory -> result private_attr.
Variable type_new : string -> list class -> namespace -> result class.

Implicit Types (h : heap) (l : loc) (bases : list class) (cls : class)
  (items : list (string * entry)).






End Construction.

Lemma register_stores_private_slots_witness :
  let items := ns_items Props_body in
  let r := register validate PrivateAttr items
             [("x", VClass "int"); ("y", VClass "int")] items in
  r.2 = Ok tt
  /\ forall p, p ∈ slot_names items ->
       exists decl,
         (exists varname field,
             (varname, EField field) ∈ items
             /\ private_name field = Some p
             /\ PrivateAttr (default field) (default_factory field) = Ok decl)
         /\ dict_get p r.1.2 = Some (EPrivate decl).
Proof.
  intros items r.
  assert (H : register validate PrivateAttr items
                [("x", VClass "int"); ("y", VClass "int")] items
              = (r.1.1, r.1.2, Ok tt))
    by (vm_compute; reflexivity).
  split; [vm_compute; reflexivity|].
  exact (proj1 (register_stores_private_slots validate PrivateAttr items _
                  items _ _ H)).
Defined.

(** C3 as stated fails: the body declares [_x] with default [1]; after
    registration of [x = field_property('_x', default=0)] the entry
    under [_x] is the synthesized declaration with default [0]. *)
Lemma register_replaces_explicit_declaration :
  let r := register validate PrivateAttr explicit_items [] explicit_items in
  r.2 = Ok tt
  /\ ("x", EField bare_x) ∈ explicit_items
  /\ private_name bare_x = Some "_x"
  /\ dict_get "_x" explicit_items = Some (EPrivate explicit_x)
  /\ dict_get "_x" r.1.2
     = Some (EPrivate {| pa_default := VInt 0; pa_default_factory := None |})
  /\ dict_get "_x" r.1.2 <> dict_get "_x" explicit_items.
Proof.
  split; [vm_compute; reflexivity|].
  split; [right; left|].
  split; [vm_compute; reflexivity|].
  split; [vm_compute; reflexivity|].
  split; [vm_compute; reflexivity|].
  vm_compute. discriminate.
Qed.


(** The subclass lists its parent's names and then its own; [x] appears
    twice and resolves to the subclass's descriptor, and the parent's
    list is the one it had. *)
Example child_registry :
  registry (built_heap Child_built) (built_class Child_built)
  = ["x"; "y"; "z"; "x"]
  /\ c_attrs (built_class Child_built) !! "x" = Some (AProperty child_x)
  /\ registry (built_heap Child_built) Props = ["x"; "y"; "z"]
  /\ c_attrs Props !! "x" = Some (AProperty prop_x).
Proof. vm_compute. repeat split. Qed.

(** * Further properties *)

(** ** Defaults and construction *)

Section Defaults.

Implicit Types (self : field_property) (i : instance).

Lemma is_undefined_true (v : value) : is_undefined v = true <-> v = VUndefined.
Proof. destruct v; simpl; split; congruence. Qed.

Lemma class_of_defined (v : value) : is_undefined (class_of v) = false.
Proof. destruct v; reflexivity. Qed.

(** [get_type] yields the [Undefined] sentinel exactly when no default
    is set and the factory is absent or itself produces the sentinel. *)
Theorem get_type_unset_iff self :
  get_type self = Ok VUndefined <->
  default self = VUndefined
  /\ match default_factory self with
     | None => True
     | Some f => call_factory f = Ok VUndefined
     end.
Proof.
  unfold get_type, get_default.
  destruct (is_undefined (default self)) eqn:Hd; simpl.
  - apply is_undefined_true in Hd. rewrite Hd.
    destruct (default_factory self) as [f|]; simpl.
    + destruct (call_factory f) as [v|e]; [|split; [discriminate|intros [_ H]; discriminate]].
      destruct (is_undefined v) eqn:Hv.
      * apply is_undefined_true in Hv as ->. tauto.
      * split.
        -- intros H. injection H as H. pose proof (class_of_defined v) as Hc.
           rewrite H in Hc. discriminate.
        -- intros [_ H]. injection H as ->. discriminate.
    + tauto.
  - rewrite Hd. split.
    + intros H. injection H as H. pose proof (class_of_defined (default self)) as Hc.
      rewrite H in Hc. discriminate.
    + intros [H _]. rewrite H in Hd. discriminate.
Qed.

(** A default that is set wins over the factory: the factory is not
    called, even one that would raise, and the inferred type is the
    class of the default. *)
Theorem set_default_wins self :
  is_undefined (default self) = false ->
  get_default self = Ok (default self)
  /\ get_type self = Ok (class_of (default self)).
Proof.
  intros Hd. unfold get_type, get_default. rewrite Hd. simpl. rewrite Hd.
  split; reflexivity.
Qed.

Lemma set_default_wins_witness :
  is_undefined (default ModelSystem.prop_y) = false
  /\ get_default ModelSystem.prop_y = Ok (VInt 0)
  /\ get_type ModelSystem.prop_y = Ok (VClass "int").
Proof.
  split; [reflexivity|].
  exact (set_default_wins ModelSystem.prop_y eq_refl).
Defined.

(** A constructor call that passes both a default and a factory never
    stores the factory it was given: [default_factory] becomes the
    return annotation of the getter; without such an annotation (always
    so for the string and the getter-less forms) the default itself is
    replaced by [None], which is then what the descriptor resolves. *)
Theorem init_with_default_and_factory (fget0 : fget_arg)
    (fset0 : option setter_fn) (fdel0 : option deleter_fn) (default0 : value)
    (public_name0 private_name0 : option string) (f : factory)
    (cs : constraints) :
  is_undefined default0 = false ->
  let self := __init__ fget0 fset0 fdel0 default0 public_name0 private_name0
                (Some f) cs in
  let ann := match fget0 with ArgFun _ a => a | _ => SigEmpty end in
  default_factory self = Some ann
  /\ default self = (if is_sig_empty ann then VNone else default0)
  /\ get_default self = Ok (if is_sig_empty ann then VNone else default0).
Proof.
  intros Hd self ann. subst self ann. unfold get_default, __init__.
  rewrite Hd. simpl.
  destruct fget0 as [|s|call a]; simpl; try (repeat split; reflexivity).
  destruct (is_sig_empty a); simpl; [repeat split; reflexivity|].
  rewrite Hd. repeat split; reflexivity.
Qed.

Lemma init_with_default_and_factory_witness :
  is_undefined (VInt 5) = false
  /\ default_factory Cases.both_x = Some SigEmpty
  /\ default Cases.both_x = VNone
  /\ get_default Cases.both_x = Ok VNone.
Proof.
  split; [reflexivity|].
  exact (init_with_default_and_factory (ArgStr "_x") None None (VInt 5) None
           None (Producer (Ok (VInt 7))) ModelSystem.no_constraints eq_refl).
Defined.

(** The decorator form [field_property(...)(f)] builds the descriptor
    that the constructor form [field_property(f, ...)] builds, unless a
    default and a factory are both passed and [f] carries a return
    annotation. *)
Theorem decorator_form_is_constructor_form (call : obj -> result value)
    (ann : factory) (fset0 : option setter_fn) (fdel0 : option deleter_fn)
    (default0 : value) (public_name0 private_name0 : option string)
    (default_factory0 : option factory) (cs : constraints) :
  is_undefined default0 = true \/ default_factory0 = None \/ ann = SigEmpty ->
  getter (__init__ ArgNone fset0 fdel0 default0 public_name0 private_name0
            default_factory0 cs)
    (Some (UserGetter call ann))
  = __init__ (ArgFun call ann) fset0 fdel0 default0 public_name0 private_name0
      default_factory0 cs.
Proof.
  intros H. unfold getter, __init__. simpl.
  destruct H as [H|[H|H]].
  - rewrite H. reflexivity.
  - rewrite H, andb_false_r. reflexivity.
  - rewrite H. destruct (negb (is_undefined default0) && _); reflexivity.
Qed.

Lemma decorator_form_is_constructor_form_witness :
  (is_undefined (VInt 0) = true \/ @None factory = None \/ SigEmpty = SigEmpty)
  /\ setter
       (getter (__init__ ArgNone None None (VInt 0) None None None
                  ModelSystem.no_constraints)
          (Some (UserGetter (ModelSystem.load_slot "_z" (VInt 0)) SigEmpty)))
       (Some (ModelSystem.store_slot "_z"))
     = ModelSystem.prop_z.
Proof.
  split; [right; left; reflexivity|].
  rewrite (decorator_form_is_constructor_form
             (ModelSystem.load_slot "_z" (VInt 0)) SigEmpty None None (VInt 0)
             None None None ModelSystem.no_constraints
             (or_intror (or_introl eq_refl))).
  reflexivity.
Defined.

(** A slot name that does not start with an underscore, or that starts
    with two, gives no public name: [public_name] is what the caller
    passed, [None] included. *)
Theorem init_public_name_kept (s : string)
    (fset0 : option setter_fn) (fdel0 : option deleter_fn) (default0 : value)
    (public_name0 private_name0 : option string)
    (default_factory0 : option factory) (cs : constraints) :
  startswith "_" s = false \/ startswith "__" s = true ->
  let self := __init__ (ArgStr s) fset0 fdel0 default0 public_name0
                private_name0 default_factory0 cs in
  public_name self = public_name0 /\ private_name self = Some s.
Proof.
  intros H self. subst self. unfold __init__.
  assert (Hc : startswith "_" s && negb (startswith "__" s) = false)
    by (destruct H as [->| ->]; [reflexivity|apply andb_false_r]).
  rewrite Hc.
  destruct (negb (is_undefined default0) && is_not_none default_factory0);
    destruct public_name0; simpl; split; reflexivity.
Qed.

Lemma init_public_name_kept_witness :
  (startswith "_" "__x" = false \/ startswith "__" "__x" = true)
  /\ public_name (__init__ (ArgStr "__x") None None VUndefined None (Some "_y")
                    None ModelSystem.no_constraints) = None
  /\ private_name (__init__ (ArgStr "__x") None None VUndefined None (Some "_y")
                     None ModelSystem.no_constraints) = Some "__x".
Proof.
  split; [right; reflexivity|].
  exact (init_public_name_kept "__x" None None VUndefined None (Some "_y") None
           ModelSystem.no_constraints (or_intror eq_refl)).
Defined.

(** The builders and the binding step act on separate slots: they can
    be applied in any order, and of two calls of one builder the later
    one counts. *)
Theorem builders_commute self (g g' : option getter_fn)
    (f f' : option setter_fn) (d d' : option deleter_fn)
    (owner owner' name name' : string) :
  setter (getter self g) f = getter (setter self f) g
  /\ deleter (getter self g) d = getter (deleter self d) g
  /\ deleter (setter self f) d = setter (deleter self d) f
  /\ __set_name__ (getter self g) owner name
     = getter (__set_name__ self owner name) g
  /\ __set_name__ (setter self f) owner name
     = setter (__set_name__ self owner name) f
  /\ __set_name__ (deleter self d) owner name
     = deleter (__set_name__ self owner name) d
  /\ getter (getter self g) g' = getter self g'
  /\ setter (setter self f) f' = setter self f'
  /\ deleter (deleter self d) d' = deleter self d'
  /\ __set_name__ (__set_name__ self owner name) owner' name'
     = __set_name__ self owner' name'.
Proof. repeat split. Qed.

(** A descriptor built without a getter and without [private_name] has
    no slot to read: every read on an instance raises [TypeError],
    whatever the default is, also after a setter or deleter is
    attached and after binding. *)
Theorem read_without_slot_name_raises (fset0 : option setter_fn)
    (fdel0 : option deleter_fn) (default0 : value)
    (public_name0 : option string) (default_factory0 : option factory)
    (cs : constraints) (f : option setter_fn) (d : option deleter_fn)
    (owner name : string) i :
  let self := __init__ ArgNone fset0 fdel0 default0 public_name0 None
                default_factory0 cs in
  __get__ self (Some i) = inr (Raise (TypeError "attribute name must be string"))
  /\ __get__ (__set_name__ (deleter (setter self f) d) owner name) (Some i)
     = inr (Raise (TypeError "attribute name must be string")).
Proof.
  intros self. subst self. unfold __init__.
  destruct (negb (is_undefined default0) && is_not_none default_factory0);
    split; reflexivity.
Qed.

(** The internal getter hands on whatever the lookup of the slot
    yields, unless that is an [AttributeError]: a stored value is
    returned whatever the default is, and any other error is raised
    as it is. *)
Theorem internal_getter_passes_through self i (p : string)
    (r : result value) :
  fget self = Some InternalGetter ->
  private_name self = Some p ->
  inst_getattr i p = r ->
  (forall msg, r <> Raise (AttributeError msg)) ->
  __get__ self (Some i) = inr r.
Proof.
  intros Hg Hp Hr Hne. simpl. unfold read. rewrite Hg. simpl.
  unfold internal_getter. rewrite Hp, Hr.
  destruct r as [v|[msg| | | |]]; try reflexivity.
  exfalso. exact (Hne msg eq_refl).
Qed.

Lemma internal_getter_passes_through_witness :
  let i := {| inst_obj := ModelSystem.p0;
              inst_getattr := getattr 1 ModelSystem.Props ModelSystem.p0 |} in
  fget ModelSystem.prop_x = Some InternalGetter
  /\ private_name ModelSystem.prop_x = Some "_x"
  /\ inst_getattr i "_x" = Ok (VInt 0)
  /\ __get__ ModelSystem.prop_x (Some i) = inr (Ok (VInt 0)).
Proof.
  intros i.
  assert (H : inst_getattr i "_x" = Ok (VInt 0)) by (vm_compute; reflexivity).
  split; [reflexivity|]. split; [reflexivity|]. split; [exact H|].
  apply (internal_getter_passes_through ModelSystem.prop_x i "_x" (Ok (VInt 0))
           eq_refl eq_refl H).
  intros msg. discriminate.
Defined.

End Defaults.

(** ** Reads and writes on instances *)

Section Reads.

Variables (c : class).
Implicit Types (o : obj) (fuel : nat).

Lemma getattr_slot fuel o (p : string) :
  c_attrs c !! p = Some ASlot ->
  getattr fuel c o p
  = match o_slots o !! p with
    | Some v => Ok v
    | None => Raise (AttributeError p)
    end.
Proof. intros Hp. destruct fuel; simpl; rewrite Hp; reflexivity. Qed.

(** A descriptor with the internal getter that names its own attribute
    as its slot never yields a value: the read re-enters itself until
    the recursion depth is used up, whatever the depth. *)
Theorem self_named_slot_never_reads fuel o (name : string)
    (d : field_property) :
  c_attrs c !! name = Some (AProperty d) ->
  fget d = Some InternalGetter ->
  private_name d = Some name ->
  getattr fuel c o name = Raise RecursionError.
Proof.
  intros Hc Hg Hp. induction fuel as [|n IH]; simpl; rewrite Hc;
    [reflexivity|].
  unfold read. rewrite Hg. simpl. unfold internal_getter. rewrite Hp. simpl.
  rewrite IH. reflexivity.
Qed.

End Reads.

Lemma self_named_slot_never_reads_witness :
  c_attrs Cases.Plain !! "x" = Some (AProperty Cases.self_x)
  /\ fget Cases.self_x = Some InternalGetter
  /\ private_name Cases.self_x = Some "x"
  /\ getattr 1000 Cases.Plain Cases.plain0 "x" = Raise RecursionError.
Proof.
  assert (H : c_attrs Cases.Plain !! "x" = Some (AProperty Cases.self_x))
    by (vm_compute; reflexivity).
  split; [exact H|]. split; [reflexivity|]. split; [reflexivity|].
  exact (self_named_slot_never_reads Cases.Plain 1000 Cases.plain0 "x"
           Cases.self_x H eq_refl eq_refl).
Defined.

Section Writes.

Variable base_setattr : class -> obj -> string -> value -> obj * result unit.
Variables (fuel : nat) (h : heap) (c : class).

Local Abbreviation write := (__setattr__ base_setattr fuel h c).

(** Outside its guard the write is the standard write and nothing
    else: when the name is no field property of the class, when the
    standard path left no value under the name in the map, or when the
    standard path raised, no setter runs and nothing is refreshed. *)
Theorem write_is_standard_outside_guard (o : obj) (name : string)
    (v : value) :
  is_field_property c name = false
  \/ o_dict (base_setattr c o name v).1 !! name = None
  \/ (exists e, (base_setattr c o name v).2 = Raise e) ->
  write o name v = base_setattr c o name v.
Proof.
  intros H. unfold __setattr__.
  destruct (base_setattr c o name v) as [o1 [[]|e]]; [|reflexivity].
  simpl in H. destruct H as [H|[H|[e H]]]; [| |discriminate].
  - rewrite H, andb_false_r. reflexivity.
  - rewrite bool_decide_eq_false_2; [reflexivity|].
    rewrite H. intros [x Hx]. discriminate.
Qed.

(** A write to a property without setter raises only after the
    standard path has run: the instance is left as the standard path
    left it, the written value in the map included. *)
Theorem write_without_setter_keeps_standard_write (o o1 : obj)
    (name : string) (v : value) (d : field_property) :
  base_setattr c o name v = (o1, Ok tt) ->
  is_Some (o_dict o1 !! name) ->
  c_attrs c !! name = Some (AProperty d) ->
  fset d = None ->
  write o name v = (o1, Raise (AttributeError "can't set attribute")).
Proof.
  intros Hb Hin Hc Hs. unfold __setattr__, is_field_property, object_setattr.
  rewrite Hb, Hc, (bool_decide_eq_true_2 _ Hin). simpl.
  unfold __set__. rewrite Hs. reflexivity.
Qed.

(** A setter that raises ends the write with its error: the instance
    is as the setter left it and the registry is not re-read. *)
Theorem setter_error_skips_refresh (o o1 o2 : obj) (name : string)
    (v : value) (d : field_property) (f : setter_fn) (e : exn) :
  base_setattr c o name v = (o1, Ok tt) ->
  is_Some (o_dict o1 !! name) ->
  c_attrs c !! name = Some (AProperty d) ->
  fset d = Some f ->
  f o1 v = (o2, Raise e) ->
  write o name v = (o2, Raise e).
Proof.
  intros Hb Hin Hc Hs Hf. unfold __setattr__, is_field_property, object_setattr.
  rewrite Hb, Hc, (bool_decide_eq_true_2 _ Hin). simpl.
  unfold __set__. rewrite Hs, Hf. reflexivity.
Qed.

(** Round trip of a slot-backed field: with the internal getter on
    slot [p] and a setter that stores the value in [p], a completed
    write of [v] leaves [v] in the slot, in the read of the field and,
    for a registered field, in the map. *)
Theorem slot_backed_round_trip (o o' : obj) (name p : string) (v : value)
    (d : field_property) :
  c_attrs c !! name = Some (AProperty d) ->
  fget d = Some InternalGetter ->
  private_name d = Some p ->
  fset d = Some (ModelSystem.store_slot p) ->
  c_attrs c !! p = Some ASlot ->
  name ∈ registry h c ->
  is_Some (o_dict (base_setattr c o name v).1 !! name) ->
  write o name v = (o', Ok tt) ->
  o_slots o' !! p = Some v
  /\ getattr fuel c o' name = Ok v
  /\ o_dict o' !! name = Some v.
Proof.
  intros Hc Hg Hp Hs Hslot Hreg Hin Hw. unfold __setattr__ in Hw.
  destruct (base_setattr c o name v) as [o1 [[]|e]]; [|discriminate].
  simpl in Hin. unfold is_field_property, object_setattr in Hw.
  rewrite Hc, (bool_decide_eq_true_2 _ Hin) in Hw. simpl in Hw.
  unfold __set__ in Hw. rewrite Hs in Hw. unfold ModelSystem.store_slot in Hw.
  set (o2 := with_slots o1 (<[p := v]> (o_slots o1))) in Hw.
  destruct (read_all fuel c o2 (registry h c)) as [kvs|e] eqn:Hr;
    [|discriminate].
  injection Hw as <-.
  destruct (refresh_lookup _ _ _ _ _ Hr name Hreg) as (x & Hx & Hd).
  assert (Hread : forall o3, o_slots o3 = o_slots o2 ->
                             getattr fuel c o3 name = Ok x).
  { intros o3 Ho3. rewrite <- Hx. destruct fuel as [|n]; simpl; rewrite Hc.
    - reflexivity.
    - unfold read. rewrite Hg. simpl. unfold internal_getter. rewrite Hp. simpl.
      rewrite !getattr_slot by exact Hslot. rewrite Ho3. reflexivity. }
  assert (Hxv : x = v).
  { destruct fuel as [|n]; simpl in Hx; rewrite Hc in Hx; [discriminate|].
    unfold read in Hx. rewrite Hg in Hx. simpl in Hx.
    unfold internal_getter in Hx. rewrite Hp in Hx. simpl in Hx.
    rewrite getattr_slot in Hx by exact Hslot.
    subst o2. simpl in Hx. rewrite lookup_insert_eq in Hx. congruence. }
  subst x. split; [subst o2; simpl; apply lookup_insert_eq|].
  split; [apply Hread; reflexivity|exact Hd].
Qed.

Lemma dict_update_id (d : gmap string value) (kvs : list (string * value)) :
  (forall k x, (k, x) ∈ kvs -> d !! k = Some x) ->
  dict_update d kvs = d.
Proof.
  induction kvs as [|[k x] rest IH]; intros H; [reflexivity|].
  rewrite dict_update_cons, insert_id by (apply H; left).
  apply IH. intros k' x' Hin. apply H. right. exact Hin.
Qed.

Lemma read_all_ext (o1 o2 : obj) (names : list string) :
  (forall n, n ∈ names -> getattr fuel c o1 n = getattr fuel c o2 n) ->
  read_all fuel c o1 names = read_all fuel c o2 names.
Proof.
  induction names as [|n rest IH]; intros H; [reflexivity|].
  simpl. unfold object_getattr. rewrite (H n) by left.
  rewrite IH by (intros m Hm; apply H; right; exact Hm). reflexivity.
Qed.

(** The map a completed write leaves is a fixed point of the refresh:
    reading the registry again on the resulting instance succeeds and
    updating the map with these values changes nothing (for getters
    that do not read the map). *)
Theorem refreshed_map_is_stable (o o' : obj) (name : string) (v : value) :
  is_field_property c name = true ->
  is_Some (o_dict (base_setattr c o name v).1 !! name) ->
  reads_ignore_map fuel h c ->
  write o name v = (o', Ok tt) ->
  exists kvs,
    read_all fuel c o' (registry h c) = Ok kvs
    /\ dict_update (o_dict o') kvs = o_dict o'.
Proof.
  intros Hp Hin Hpure Hw. unfold __setattr__ in Hw.
  destruct (base_setattr c o name v) as [o1 [[]|e]]; [|discriminate].
  simpl in Hin. rewrite Hp, (bool_decide_eq_true_2 _ Hin) in Hw. simpl in Hw.
  destruct (object_setattr c o1 name v) as [o2 [[]|e]]; [|discriminate].
  destruct (read_all fuel c o2 (registry h c)) as [kvs|e] eqn:Hr;
    [|discriminate].
  injection Hw as <-. exists kvs. split.
  - rewrite <- Hr. apply read_all_ext. intros n Hn. apply Hpure, Hn.
  - apply dict_update_id. intros k x Hkx. simpl.
    destruct (read_all_ok _ _ _ _ _ Hr) as [Hkeys Hvals].
    destruct (dict_update_functional (getattr fuel c o2) (o_dict o2) kvs k Hvals)
      as (x' & Hx' & Hd).
    + apply list_elem_of_fmap. exists (k, x). split; [reflexivity|exact Hkx].
    + rewrite (Hvals k x Hkx) in Hx'. injection Hx' as <-. exact Hd.
Qed.

End Writes.

Lemma write_is_standard_outside_guard_witness :
  (is_field_property Props "_x" = false
   \/ o_dict (BaseModel_setattr Props p0 "_x" (VInt 7)).1 !! "_x" = None
   \/ exists e, (BaseModel_setattr Props p0 "_x" (VInt 7)).2 = Raise e)
  /\ setattr 5 heap1 Props p0 "_x" (VInt 7)
     = BaseModel_setattr Props p0 "_x" (VInt 7).
Proof.
  assert (H : is_field_property Props "_x" = false) by (vm_compute; reflexivity).
  split; [left; exact H|].
  exact (write_is_standard_outside_guard BaseModel_setattr 5 heap1 Props p0
           "_x" (VInt 7) (or_introl H)).
Defined.

Lemma write_without_setter_keeps_standard_write_witness :
  BaseModel_setattr ReadOnly r0 "x" (VInt 4) = (Cases.r0_x4, Ok tt)
  /\ is_Some (o_dict Cases.r0_x4 !! "x")
  /\ c_attrs ReadOnly !! "x" = Some (AProperty bare_x)
  /\ fset bare_x = None
  /\ o_dict Cases.r0_x4 !! "x" = Some (VInt 4)
  /\ setattr 5 heap2 ReadOnly r0 "x" (VInt 4)
     = (Cases.r0_x4, Raise (AttributeError "can't set attribute")).
Proof.
  assert (H1 : BaseModel_setattr ReadOnly r0 "x" (VInt 4) = (Cases.r0_x4, Ok tt))
    by (vm_compute; reflexivity).
  assert (H5 : o_dict Cases.r0_x4 !! "x" = Some (VInt 4))
    by (vm_compute; reflexivity).
  assert (H2 : is_Some (o_dict Cases.r0_x4 !! "x")) by (rewrite H5; eauto).
  assert (H3 : c_attrs ReadOnly !! "x" = Some (AProperty bare_x))
    by (vm_compute; reflexivity).
  repeat (split; [first [assumption | reflexivity]|]).
  exact (write_without_setter_keeps_standard_write BaseModel_setattr 5 heap2
           ReadOnly r0 Cases.r0_x4 "x" (VInt 4) bare_x H1 H2 H3 eq_refl).
Defined.

Lemma setter_error_skips_refresh_witness :
  BaseModel_setattr Props p0 "y" (VStr "a") = (Cases.p0_ya, Ok tt)
  /\ is_Some (o_dict Cases.p0_ya !! "y")
  /\ c_attrs Props !! "y" = Some (AProperty prop_y)
  /\ fset prop_y = Some set_y
  /\ set_y Cases.p0_ya (VStr "a")
     = (Cases.p0_ya, Raise (TypeError "int() argument"))
  /\ setattr 5 heap1 Props p0 "y" (VStr "a")
     = (Cases.p0_ya, Raise (TypeError "int() argument")).
Proof.
  assert (H1 : BaseModel_setattr Props p0 "y" (VStr "a") = (Cases.p0_ya, Ok tt))
    by (vm_compute; reflexivity).
  assert (H2 : is_Some (o_dict Cases.p0_ya !! "y"))
    by (exists (VStr "a"); vm_compute; reflexivity).
  assert (H3 : c_attrs Props !! "y" = Some (AProperty prop_y))
    by (vm_compute; reflexivity).
  repeat (split; [first [assumption | reflexivity]|]).
  exact (setter_error_skips_refresh BaseModel_setattr 5 heap1 Props p0
           Cases.p0_ya Cases.p0_ya "y" (VStr "a") prop_y set_y _
           H1 H2 H3 eq_refl eq_refl).
Defined.

Lemma slot_backed_round_trip_witness :
  c_attrs Props !! "x" = Some (AProperty prop_x)
  /\ fget prop_x = Some InternalGetter
  /\ private_name prop_x = Some "_x"
  /\ fset prop_x = Some (store_slot "_x")
  /\ c_attrs Props !! "_x" = Some ASlot
  /\ "x" ∈ registry heap1 Props
  /\ is_Some (o_dict (BaseModel_setattr Props p0 "x" (VInt 2)).1 !! "x")
  /\ setattr 5 heap1 Props p0 "x" (VInt 2) = (Cases.p0_x2, Ok tt)
  /\ o_slots Cases.p0_x2 !! "_x" = Some (VInt 2)
  /\ getattr 5 Props Cases.p0_x2 "x" = Ok (VInt 2)
  /\ o_dict Cases.p0_x2 !! "x" = Some (VInt 2).
Proof.
  assert (H1 : c_attrs Props !! "x" = Some (AProperty prop_x))
    by (vm_compute; reflexivity).
  assert (H5 : c_attrs Props !! "_x" = Some ASlot) by (vm_compute; reflexivity).
  assert (H6 : "x" ∈ registry heap1 Props)
    by (change (registry heap1 Props) with ["x"; "y"; "z"]; left).
  assert (H7 : is_Some (o_dict (BaseModel_setattr Props p0 "x" (VInt 2)).1
                          !! "x"))
    by (exists (VInt 2); vm_compute; reflexivity).
  assert (H8 : setattr 5 heap1 Props p0 "x" (VInt 2) = (Cases.p0_x2, Ok tt))
    by (vm_compute; reflexivity).
  do 8 (split; [first [assumption | reflexivity]|]).
  exact (slot_backed_round_trip BaseModel_setattr 5 heap1 Props p0 Cases.p0_x2
           "x" "_x" (VInt 2) prop_x H1 eq_refl eq_refl eq_refl H5 H6 H7 H8).
Defined.

Lemma refreshed_map_is_stable_witness :
  is_field_property Props "y" = true
  /\ is_Some (o_dict (BaseModel_setattr Props p0 "y" (VInt 15)).1 !! "y")
  /\ reads_ignore_map 5 heap1 Props
  /\ setattr 5 heap1 Props p0 "y" (VInt 15) = (p1, Ok tt)
  /\ exists kvs,
       read_all 5 Props p1 (registry heap1 Props) = Ok kvs
       /\ dict_update (o_dict p1) kvs = o_dict p1.
Proof.
  assert (H1 : is_field_property Props "y" = true) by (vm_compute; reflexivity).
  assert (H2 : is_Some (o_dict (BaseModel_setattr Props p0 "y" (VInt 15)).1
                          !! "y"))
    by (exists (VInt 15); vm_compute; reflexivity).
  assert (H4 : setattr 5 heap1 Props p0 "y" (VInt 15) = (p1, Ok tt))
    by (vm_compute; reflexivity).
  repeat (split; [first [assumption | exact Props_reads_ignore_map]|]).
  exact (refreshed_map_is_stable BaseModel_setattr 5 heap1 Props p0 p1 "y"
           (VInt 15) H1 H2 Props_reads_ignore_map H4).
Defined.

(** ** Registration and the class hook *)

Section Keys.

Context {V : Type}.
Implicit Types (l : list (string * V)) (k : string) (v : V).

Lemma dict_set_keys_prefix k v l :
  map fst l `prefix_of` map fst (dict_set k v l).
Proof.
  induction l as [|[k0 v0] rest IH]; simpl; [apply prefix_nil|].
  destruct (decide (k0 = k)) as [->|Hk]; simpl; [reflexivity|].
  apply prefix_cons, IH.
Qed.

Lemma dict_get_NoDup k v l :
  NoDup (map fst l) -> (k, v) ∈ l -> dict_get k l = Some v.
Proof.
  induction l as [|[k0 v0] rest IH]; simpl; intros Hnd Hin; [inversion Hin|].
  apply NoDup_cons in Hnd as [Hk0 Hnd].
  apply elem_of_cons in Hin as [Heq|Hin].
  - injection Heq as -> ->. rewrite decide_True by reflexivity. reflexivity.
  - destruct (decide (k0 = k)) as [->|Hne]; [|exact (IH Hnd Hin)].
    exfalso. apply Hk0. apply list_elem_of_fmap. exists (k, v).
    split; [reflexivity|exact Hin].
Qed.

End Keys.

Lemma descriptor_names_elem (items : list (string * entry)) (n : string) :
  n ∈ descriptor_names items <-> exists field, (n, EField field) ∈ items.
Proof.
  induction items as [|[k e] rest IH]; simpl.
  - rewrite elem_of_nil. split; [tauto|]. intros [f Hf]. inversion Hf.
  - destruct e as [field|decl|v]; rewrite ?elem_of_cons, IH; split.
    + intros [->|[f Hf]]; [exists field; left|exists f; right; exact Hf].
    + intros [f Hf]. apply elem_of_cons in Hf as [Heq|Hf]; [|eauto].
      injection Heq as -> ->. left. reflexivity.
    + intros [f Hf]. exists f. right. exact Hf.
    + intros [f Hf]. apply elem_of_cons in Hf as [Heq|Hf]; [discriminate|eauto].
    + intros [f Hf]. exists f. right. exact Hf.
    + intros [f Hf]. apply elem_of_cons in Hf as [Heq|Hf]; [discriminate|eauto].
Qed.

Lemma get_type_raise (field : field_property) (e : exn) :
  get_type field = Raise e ->
  exists f, default_factory field = Some f /\ call_factory f = Raise e.
Proof.
  unfold get_type, get_default.
  destruct (negb (is_undefined (default field))); simpl.
  - destruct (is_undefined (default field)); discriminate.
  - destruct (default_factory field) as [f|]; [|discriminate].
    destruct (call_factory f) as [v|e0] eqn:Hf.
    + destruct (is_undefined v); discriminate.
    + intros H. injection H as <-. eauto.
Qed.

Section RegistrationMore.

Variable validate : field_property -> result unit.
Variable PrivateAttr : value -> option factory -> result private_attr.

Implicit Types (snapshot items : list (string * entry))
  (annotations : list (string * value))
  (writes : list (string * private_attr)).

Local Abbreviation stores writes items :=
  (fold_left (fun acc w => dict_set w.1 (EPrivate w.2) acc) writes items).

Local Abbreviation run snapshot annotations items :=
  (register validate PrivateAttr snapshot annotations items).

Lemma slot_names_cons (x : string * entry) snapshot :
  slot_names (x :: snapshot) = slot_names [x] ++ slot_names snapshot.
Proof.
  destruct x as [varname [field|decl|v]]; simpl; try reflexivity.
  destruct (private_name field) as [p|]; [|reflexivity].
  destruct (truthy (Some p)); reflexivity.
Qed.

(** One step of the first loop on a descriptor: either it raises and
    stores nothing, or the loop goes on with the annotation and the
    private declaration of this descriptor in place. *)
Lemma register_field_step (varname : string) (field : field_property)
    snapshot annotations items annotations' items' (r : result unit) :
  run ((varname, EField field) :: snapshot) annotations items
  = (annotations', items', r) ->
  (exists e, r = Raise e /\ items' = items
             /\ (validate field = Raise e \/ get_type field = Raise e
                 \/ PrivateAttr (default field) (default_factory field)
                    = Raise e))
  \/ exists annotations1 items1,
       run snapshot annotations1 items1 = (annotations', items', r)
       /\ match dict_get varname annotations with
          | Some _ => annotations1 = annotations
          | None => exists t, get_type field = Ok t
                              /\ annotations1 = dict_set varname t annotations
          end
       /\ ((slot_names [(varname, EField field)] = [] /\ items1 = items)
           \/ exists p decl,
                slot_names [(varname, EField field)] = [p]
                /\ private_name field = Some p
                /\ PrivateAttr (default field) (default_factory field) = Ok decl
                /\ items1 = dict_set p (EPrivate decl) items).
Proof.
  simpl. intros H.
  destruct (validate field) as [[]|e] eqn:Hv;
    [|left; exists e; injection H as <- <- <-; auto].
  assert (Hgo : forall annotations1,
             match dict_get varname annotations with
             | Some _ => annotations1 = annotations
             | None => exists t, get_type field = Ok t
                                 /\ annotations1 = dict_set varname t annotations
             end ->
             match private_name field with
             | Some p =>
                 if truthy (private_name field)
                 then match PrivateAttr (default field) (default_factory field) with
                      | Ok decl => run snapshot annotations1
                                     (dict_set p (EPrivate decl) items)
                      | Raise e => (annotations1, items, Raise e)
                      end
                 else run snapshot annotations1 items
             | None => run snapshot annotations1 items
             end = (annotations', items', r) ->
             (exists e, r = Raise e /\ items' = items
                        /\ (Ok tt = Raise e \/ get_type field = Raise e
                            \/ PrivateAttr (default field) (default_factory field)
                               = Raise e))
             \/ exists annotations1 items1,
                  run snapshot annotations1 items1 = (annotations', items', r)
                  /\ match dict_get varname annotations with
                     | Some _ => annotations1 = annotations
                     | None => exists t, get_type field = Ok t
                                 /\ annotations1 = dict_set varname t annotations
                     end
                  /\ ((match private_name field with
                       | Some p => if truthy (private_name field) then [p] else []
                       | None => []
                       end = [] /\ items1 = items)
                      \/ exists p decl,
                           match private_name field with
                           | Some p => if truthy (private_name field) then [p] else []
                           | None => []
                           end = [p]
                           /\ private_name field = Some p
                           /\ PrivateAttr (default field) (default_factory field)
                              = Ok decl
                           /\ items1 = dict_set p (EPrivate decl) items)).
  { intros a1 Ha1 Hrun.
    destruct (private_name field) as [p|] eqn:Hp;
      [|right; exists a1, items; auto].
    destruct (truthy (Some p)) eqn:Ht; [|right; exists a1, items; auto].
    destruct (PrivateAttr (default field) (default_factory field))
      as [decl|e] eqn:Hd; [|left; exists e; injection Hrun as <- <- <-; auto].
    right. exists a1, (dict_set p (EPrivate decl) items).
    split; [exact Hrun|]. split; [exact Ha1|]. right. exists p, decl. auto. }
  destruct (dict_get varname annotations) as [t0|] eqn:Ha.
  - exact (Hgo annotations eq_refl H).
  - destruct (get_type field) as [t|e] eqn:Hty;
      [|left; exists e; injection H as <- <- <-; auto].
    exact (Hgo (dict_set varname t annotations)
             (ex_intro _ t (conj eq_refl eq_refl)) H).
Qed.

(** Whether it completes or raises, the first loop deletes nothing:
    the keys the namespace had keep their order, new keys come after
    them, and an entry whose key no descriptor names as its slot is
    the entry it was. *)
Theorem register_keeps_entries snapshot annotations items :
  map fst items `prefix_of` map fst (run snapshot annotations items).1.2
  /\ forall k, k ∉ slot_names snapshot ->
       dict_get k (run snapshot annotations items).1.2 = dict_get k items.
Proof.
  revert annotations items.
  induction snapshot as [|[varname e] rest IH]; intros annotations items.
  - simpl. split; reflexivity.
  - destruct e as [field|decl|v]; [|exact (IH annotations items)..].
    destruct (run ((varname, EField field) :: rest) annotations items)
      as [[annotations' items'] r] eqn:Hrun.
    rewrite slot_names_cons. simpl fst. simpl snd.
    destruct (register_field_step _ _ _ _ _ _ _ _ Hrun)
      as [(e & _ & -> & _)|(a1 & i1 & Hrest & _ & Hitems)];
      [split; reflexivity|].
    destruct (IH a1 i1) as [Hpre Hget]. rewrite Hrest in Hpre, Hget.
    simpl in Hpre, Hget.
    destruct Hitems as [[-> ->]|(p & decl & -> & _ & _ & ->)].
    + split; [exact Hpre|exact Hget].
    + split; [etransitivity; [apply dict_set_keys_prefix|exact Hpre]|].
      intros k Hk. simpl in Hk. apply not_elem_of_cons in Hk as [Hne Hk].
      rewrite Hget by exact Hk. apply dict_get_set_ne. congruence.
Qed.

(** When the first loop completes, an annotation the body wrote is
    never replaced: every annotation present before is present after
    with its value, every descriptor of the snapshot is annotated, and
    a descriptor name that had no annotation has the inferred type of a
    descriptor under that name; names of other entries gain nothing. *)
Theorem register_annotates_descriptors snapshot annotations items
    annotations' items' :
  run snapshot annotations items = (annotations', items', Ok tt) ->
  (forall k t, dict_get k annotations = Some t ->
     dict_get k annotations' = Some t)
  /\ (forall k, k ∉ descriptor_names snapshot ->
        dict_get k annotations' = dict_get k annotations)
  /\ (forall varname,
        varname ∈ descriptor_names snapshot ->
        dict_get varname annotations = None ->
        exists field t,
          (varname, EField field) ∈ snapshot
          /\ get_type field = Ok t
          /\ dict_get varname annotations' = Some t).
Proof.
  revert annotations items.
  induction snapshot as [|[varname e] rest IH]; intros annotations items H.
  - simpl in H. injection H as <- <-. repeat split; auto.
    intros vn Hin. inversion Hin.
  - assert (Hskip : forall f, (exists field t,
                       (f, EField field) ∈ rest /\ get_type field = Ok t
                       /\ dict_get f annotations' = Some t) ->
                     exists field t,
                       (f, EField field) ∈ (varname, e) :: rest
                       /\ get_type field = Ok t
                       /\ dict_get f annotations' = Some t).
    { intros f (field & t & Hin & Ht & Hg). exists field, t.
      split; [right; exact Hin|]. split; assumption. }
    destruct e as [field|decl|v];
      [|destruct (IH _ _ H) as (I1 & I2 & I3);
        split; [exact I1|]; split; [exact I2|];
        intros vn Hin Hnone; apply Hskip, I3; assumption..].
    destruct (register_field_step _ _ _ _ _ _ _ _ H)
      as [(e & He & _)|(a1 & i1 & Hrest & Hann & _)]; [discriminate|].
    destruct (IH _ _ Hrest) as (I1 & I2 & I3). simpl descriptor_names.
    destruct (dict_get varname annotations) as [t0|] eqn:Ha.
    + subst a1. split; [exact I1|]. split.
      * intros k Hk. apply not_elem_of_cons in Hk as [_ Hk]. exact (I2 k Hk).
      * intros vn Hin Hnone. apply elem_of_cons in Hin as [->|Hin];
          [congruence|]. apply Hskip, I3; assumption.
    + destruct Hann as (t & Hty & ->). split; [|split].
      * intros k t1 Hk. apply I1. rewrite dict_get_set_ne; [exact Hk|].
        intros ->. congruence.
      * intros k Hk. apply not_elem_of_cons in Hk as [Hne Hk].
        rewrite (I2 k Hk). apply dict_get_set_ne. congruence.
      * intros vn Hin Hnone. destruct (decide (vn = varname)) as [->|Hne].
        -- exists field, t. split; [left|]. split; [exact Hty|].
           apply I1, dict_get_set_eq.
        -- apply elem_of_cons in Hin as [->|Hin]; [congruence|].
           apply Hskip, I3; [exact Hin|].
           rewrite dict_get_set_ne by congruence. exact Hnone.
Qed.

(** Where an error of the first loop comes from. *)
Lemma register_raise_cause snapshot annotations items
    annotations' items' (e : exn) :
  run snapshot annotations items = (annotations', items', Raise e) ->
  exists varname field,
    (varname, EField field) ∈ snapshot
    /\ (validate field = Raise e
        \/ (exists f, default_factory field = Some f
                      /\ call_factory f = Raise e)
        \/ PrivateAttr (default field) (default_factory field) = Raise e).
Proof.
  revert annotations items.
  induction snapshot as [|[varname en] rest IH]; intros annotations items H.
  - simpl in H. discriminate.
  - assert (Hskip : (exists vn field,
                       (vn, EField field) ∈ rest
                       /\ (validate field = Raise e
                           \/ (exists f, default_factory field = Some f
                                         /\ call_factory f = Raise e)
                           \/ PrivateAttr (default field) (default_factory field)
                              = Raise e)) ->
                    exists vn field,
                      (vn, EField field) ∈ (varname, en) :: rest
                      /\ (validate field = Raise e
                          \/ (exists f, default_factory field = Some f
                                        /\ call_factory f = Raise e)
                          \/ PrivateAttr (default field) (default_factory field)
                             = Raise e)).
    { intros (vn & field & Hin & Hc). exists vn, field.
      split; [right; exact Hin|exact Hc]. }
    destruct en as [field|decl|v]; [|apply Hskip, (IH _ _ H)..].
    destruct (register_field_step _ _ _ _ _ _ _ _ H)
      as [(e0 & He & _ & Hc)|(a1 & i1 & Hrest & _)];
      [|apply Hskip, (IH _ _ Hrest)].
    injection He as <-. exists varname, field. split; [left|].
    destruct Hc as [Hc|[Hc|Hc]]; auto.
    right. left. exact (get_type_raise _ _ Hc).
Qed.

(** A name that a descriptor of the body uses as its private slot is
    no descriptor of the namespace once the loop has completed: a
    descriptor declared under that name has been replaced by the
    private declaration. *)
Theorem slot_names_are_not_descriptors annotations items annotations' items' :
  run items annotations items = (annotations', items', Ok tt) ->
  NoDup (map fst items) ->
  forall p, p ∈ slot_names items -> p ∉ descriptor_names items'.
Proof.
  intros H Hnd p Hp Hin.
  destruct (register_stores validate PrivateAttr _ _ _ _ _ H)
    as (writes & -> & Hkeys & _).
  rewrite <- Hkeys in Hp.
  destruct (stores_written writes items p Hp) as (decl & _ & Hget).
  apply descriptor_names_elem in Hin as [field Hfield].
  rewrite (dict_get_NoDup p (EField field) _ (stores_NoDup writes items Hnd) Hfield)
    in Hget.
  discriminate.
Qed.

End RegistrationMore.

Section HookMore.

Variable validate : field_property -> result unit.
Variable PrivateAttr : value -> option factory -> result private_attr.
Variable type_new : string -> list class -> namespace -> result class.

Implicit Types (h : heap) (l : loc) (bases : list class) (cls : class)
  (items : list (string * entry)).

Local Abbreviation hook := (__new__ validate PrivateAttr type_new).

Lemma inherit_registries_length l bases h :
  length (inherit_registries l bases h) = length h.
Proof.
  revert h. induction bases as [|b rest IH]; intros h; [reflexivity|].
  unfold inherit_registries. simpl.
  fold (inherit_registries l rest (list_extend l (registry h b) h)).
  rewrite IH. apply length_alter.
Qed.

Lemma attach_frame l items :
  forall h cls,
    length (attach l items (h, cls)).1 = length h
    /\ c_name (attach l items (h, cls)).2 = c_name cls
    /\ c_fields (attach l items (h, cls)).2 = c_fields cls
    /\ forall n, n ∉ descriptor_names items ->
         c_attrs (attach l items (h, cls)).2 !! n = c_attrs cls !! n.
Proof.
  induction items as [|[k e] rest IH]; intros h cls; [repeat split|].
  destruct e as [field|decl|v]; [|exact (IH h cls)..].
  simpl attach. simpl descriptor_names.
  destruct (IH (list_append l k h) (class_setattr cls k (AProperty field)))
    as (H1 & H2 & H3 & H4).
  split; [rewrite H1; apply length_alter|].
  split; [exact H2|]. split; [exact H3|].
  intros n Hn. apply not_elem_of_cons in Hn as [Hne Hn].
  rewrite (H4 n Hn). simpl. apply lookup_insert_ne. congruence.
Qed.

(** What a completed call of the hook is made of. *)
Lemma new_inv h (name : string) bases (namespace0 namespace1 : namespace)
    (h' : heap) cls :
  hook h name bases namespace0 = (namespace1, Ok (h', cls)) ->
  exists annotations1 new_cls cls0,
    register validate PrivateAttr (ns_items namespace0)
      (match ns_annotations namespace0 with Some a => a | None => [] end)
      (ns_items namespace0)
    = (annotations1, ns_items namespace1, Ok tt)
    /\ ns_annotations namespace1
       = match ns_annotations namespace0 with
         | Some _ => Some annotations1
         | None => None
         end
    /\ type_new name bases namespace1 = Ok new_cls
    /\ attach (length h) (ns_items namespace1)
         (inherit_registries (length h) bases (h ++ [[]]), new_cls)
       = (h', cls0)
    /\ cls = set_registry cls0 (length h).
Proof.
  intros H. unfold __new__ in H.
  destruct (register validate PrivateAttr (ns_items namespace0) _
              (ns_items namespace0)) as [[annotations1 items1] r].
  destruct r as [[]|e]; [|discriminate].
  destruct (type_new name bases _) as [new_cls|e] eqn:Hb; [|discriminate].
  destruct (attach (length h) items1 _) as [h3 cls3] eqn:Hatt.
  injection H as <- <- <-. exists annotations1, new_cls, cls3. auto.
Qed.

(** The hook raises nothing of its own: when class construction fails,
    the error is the one of the validator, of a default factory or of
    the private-storage primitive on a descriptor of the body, or the
    one the builder raised on the namespace the hook returns. *)
Theorem hook_raises_from_parts h (name : string) bases
    (namespace0 namespace1 : namespace) (e : exn) :
  hook h name bases namespace0 = (namespace1, Raise e) ->
  (exists varname field,
      (varname, EField field) ∈ ns_items namespace0
      /\ (validate field = Raise e
          \/ (exists f, default_factory field = Some f
                        /\ call_factory f = Raise e)
          \/ PrivateAttr (default field) (default_factory field) = Raise e))
  \/ type_new name bases namespace1 = Raise e.
Proof.
  intros H. unfold __new__ in H.
  destruct (register validate PrivateAttr (ns_items namespace0) _
              (ns_items namespace0)) as [[annotations1 items1] r] eqn:Hreg.
  destruct r as [[]|e0].
  - destruct (type_new name bases _) as [new_cls|e1] eqn:Hb.
    + destruct (attach (length h) items1 _). discriminate.
    + injection H as <- <-. right. exact Hb.
  - injection H as _ <-. left.
    exact (register_raise_cause _ _ _ _ _ _ _ _ Hreg).
Qed.

(** A body that annotates nothing gets no annotations: what the hook
    infers for its descriptors goes to a dictionary of its own, and the
    namespace that the builder receives, and that the hook returns,
    still has no [__annotations__]. *)
Theorem unannotated_body_stays_unannotated h (name : string) bases
    (namespace0 namespace1 : namespace)
    (r : result (heap * class)) :
  ns_annotations namespace0 = None ->
  hook h name bases namespace0 = (namespace1, r) ->
  ns_annotations namespace1 = None
  /\ forall h' cls, r = Ok (h', cls) ->
       exists new_cls, type_new name bases namespace1 = Ok new_cls.
Proof.
  intros Hnone H. split.
  - unfold __new__ in H. rewrite Hnone in H.
    destruct (register validate PrivateAttr (ns_items namespace0) _
                (ns_items namespace0)) as [[annotations1 items1] r0].
    destruct r0 as [[]|e0]; [|injection H as <- _; reflexivity].
    destruct (type_new name bases _) as [new_cls|e1];
      [|injection H as <- _; reflexivity].
    destruct (attach (length h) items1 _). injection H as <- _. reflexivity.
  - intros h' cls ->.
    destruct (new_inv _ _ _ _ _ _ _ H) as (a1 & new_cls & cls0 & _ & _ & Hb & _).
    eauto.
Qed.

(** The hook allocates exactly one list, at the end of the store, and
    makes it the registry of the new class; no base class refers to
    that list. *)
Theorem hook_allocates_one_list h (name : string) bases
    (namespace0 namespace1 : namespace) (h' : heap) cls :
  hook h name bases namespace0 = (namespace1, Ok (h', cls)) ->
  c_registry cls = Some (length h)
  /\ length h' = S (length h)
  /\ (heap_closed h bases ->
      forall b, b ∈ bases -> c_registry b <> c_registry cls).
Proof.
  intros H.
  destruct (new_inv _ _ _ _ _ _ _ H) as (a1 & new_cls & cls0 & _ & _ & _ & Hatt & ->).
  split; [reflexivity|]. split.
  - destruct (attach_frame (length h) (ns_items namespace1)
                (inherit_registries (length h) bases (h ++ [[]])) new_cls)
      as (Hlen & _).
    rewrite Hatt in Hlen. simpl in Hlen.
    rewrite Hlen, inherit_registries_length, length_app. simpl. lia.
  - intros Hclosed b Hb Heq. simpl in Heq.
    pose proof (Hclosed b (length h) Hb Heq). lia.
Qed.

(** On the class the builder returned, the hook changes only the
    attributes under the names of the namespace's descriptors and the
    registry: name, fields and every other attribute are the
    builder's. *)
Theorem hook_touches_only_descriptors h (name : string) bases
    (namespace0 namespace1 : namespace) (h' : heap) cls :
  hook h name bases namespace0 = (namespace1, Ok (h', cls)) ->
  exists new_cls,
    type_new name bases namespace1 = Ok new_cls
    /\ c_name cls = c_name new_cls
    /\ c_fields cls = c_fields new_cls
    /\ forall n, n ∉ descriptor_names (ns_items namespace1) ->
         c_attrs cls !! n = c_attrs new_cls !! n.
Proof.
  intros H.
  destruct (new_inv _ _ _ _ _ _ _ H) as (a1 & new_cls & cls0 & _ & _ & Hb & Hatt & ->).
  exists new_cls. split; [exact Hb|].
  destruct (attach_frame (length h) (ns_items namespace1)
              (inherit_registries (length h) bases (h ++ [[]])) new_cls)
    as (_ & Hn & Hf & Ha).
  rewrite Hatt in Hn, Hf, Ha. auto.
Qed.

End HookMore.

Lemma register_annotates_descriptors_witness :
  let items := ns_items Cases.Bare_body in
  let r := register validate PrivateAttr items [] items in
  r.2 = Ok tt
  /\ "z" ∈ descriptor_names items
  /\ dict_get "z" ([] : list (string * value)) = None
  /\ exists field t,
       ("z", EField field) ∈ items /\ get_type field = Ok t
       /\ dict_get "z" r.1.1 = Some t.
Proof.
  intros items r.
  assert (H : register validate PrivateAttr items [] items
              = (r.1.1, r.1.2, Ok tt)) by (vm_compute; reflexivity).
  assert (Hz : "z" ∈ descriptor_names items) by left.
  split; [vm_compute; reflexivity|]. split; [exact Hz|].
  split; [reflexivity|].
  exact (proj2 (proj2 (register_annotates_descriptors validate PrivateAttr
                         items [] items _ _ H)) "z" Hz eq_refl).
Defined.

Lemma slot_names_are_not_descriptors_witness :
  let r := register validate PrivateAttr Cases.crossed_items []
             Cases.crossed_items in
  r.2 = Ok tt
  /\ NoDup (map fst Cases.crossed_items)
  /\ "y" ∈ slot_names Cases.crossed_items
  /\ "y" ∈ descriptor_names Cases.crossed_items
  /\ "y" ∉ descriptor_names r.1.2.
Proof.
  intros r.
  assert (H : register validate PrivateAttr Cases.crossed_items []
                Cases.crossed_items = (r.1.1, r.1.2, Ok tt))
    by (vm_compute; reflexivity).
  assert (Hnd : NoDup (map fst Cases.crossed_items)).
  { apply NoDup_cons. split; [|apply NoDup_singleton].
    intros Hin. apply list_elem_of_singleton in Hin. discriminate. }
  assert (Hy : "y" ∈ slot_names Cases.crossed_items) by left.
  split; [vm_compute; reflexivity|]. split; [exact Hnd|]. split; [exact Hy|].
  split; [right; left|].
  exact (slot_names_are_not_descriptors validate PrivateAttr [] _ _ _ H Hnd
           "y" Hy).
Defined.

Lemma hook_raises_from_parts_witness :
  let b := __new__ validate PrivateAttr type_new heap4 "Refused"
             [PropertyModel] Cases.refused_body in
  b.2 = Raise Cases.both_error
  /\ ((exists varname field,
          (varname, EField field) ∈ ns_items Cases.refused_body
          /\ (validate field = Raise Cases.both_error
              \/ (exists f, default_factory field = Some f
                            /\ call_factory f = Raise Cases.both_error)
              \/ PrivateAttr (default field) (default_factory field)
                 = Raise Cases.both_error))
      \/ type_new "Refused" [PropertyModel] b.1 = Raise Cases.both_error).
Proof.
  intros b.
  assert (H : __new__ validate PrivateAttr type_new heap4 "Refused"
                [PropertyModel] Cases.refused_body
              = (b.1, Raise Cases.both_error))
    by (vm_compute; reflexivity).
  split; [vm_compute; reflexivity|].
  exact (hook_raises_from_parts validate PrivateAttr type_new heap4 "Refused"
           [PropertyModel] Cases.refused_body _ _ H).
Defined.

Lemma unannotated_body_stays_unannotated_witness :
  ns_annotations Cases.Bare_body = None
  /\ "z" ∈ descriptor_names (ns_items Cases.Bare_body)
  /\ ns_annotations Cases.Bare_built.1 = None
  /\ exists new_cls,
       type_new "Bare" [PropertyModel] Cases.Bare_built.1 = Ok new_cls.
Proof.
  assert (H : __new__ validate PrivateAttr type_new heap4 "Bare"
                [PropertyModel] Cases.Bare_body
              = (Cases.Bare_built.1,
                 Ok (built_heap Cases.Bare_built, built_class Cases.Bare_built)))
    by (vm_compute; reflexivity).
  destruct (unannotated_body_stays_unannotated validate PrivateAttr type_new
              heap4 "Bare" [PropertyModel] Cases.Bare_body _ _ eq_refl H)
    as [Hnone Hbuilt].
  split; [reflexivity|]. split; [left|]. split; [exact Hnone|].
  exact (Hbuilt _ _ eq_refl).
Defined.

Lemma hook_allocates_one_list_witness :
  __new__ validate PrivateAttr type_new heap4 "Child" [Props] Child_body
  = (Child_built.1, Ok (built_heap Child_built, built_class Child_built))
  /\ c_registry (built_class Child_built) = Some (length heap4)
  /\ length (built_heap Child_built) = S (length heap4).
Proof.
  assert (H : __new__ validate PrivateAttr type_new heap4 "Child" [Props]
                Child_body
              = (Child_built.1,
                 Ok (built_heap Child_built, built_class Child_built)))
    by (vm_compute; reflexivity).
  split; [exact H|].
  destruct (hook_allocates_one_list validate PrivateAttr type_new heap4
              "Child" [Props] Child_body _ _ _ H) as (H1 & H2 & _).
  split; assumption.
Defined.

Lemma hook_touches_only_descriptors_witness :
  __new__ validate PrivateAttr type_new heap4 "Child" [Props] Child_body
  = (Child_built.1, Ok (built_heap Child_built, built_class Child_built))
  /\ exists new_cls,
       type_new "Child" [Props] Child_built.1 = Ok new_cls
       /\ c_name (built_class Child_built) = c_name new_cls
       /\ c_fields (built_class Child_built) = c_fields new_cls
       /\ forall n, n ∉ descriptor_names (ns_items Child_built.1) ->
            c_attrs (built_class Child_built) !! n = c_attrs new_cls !! n.
Proof.
  assert (H : __new__ validate PrivateAttr type_new heap4 "Child" [Props]
                Child_body
              = (Child_built.1,
                 Ok (built_heap Child_built, built_class Child_built)))
    by (vm_compute; reflexivity).
  split; [exact H|].
  exact (hook_touches_only_descriptors validate PrivateAttr type_new heap4
           "Child" [Props] Child_body _ _ _ H).
Defined.
